(** * The Poetry lock parser of cyclonedx-python: [cyclonedx_py/parser/poetry.py]

    A shallow embedding of [PoetryParser.__init__] and of the part of the
    Python runtime it relies on, followed by the properties of the
    lock-to-component mapping.

    Layout:
    - [Py]: dynamically typed values as the TOML decoder produces them,
      exceptions, and the builtins the parser calls ([str], [int],
      [str.split], subscription, [dict.get], iteration, truthiness, tuple
      comparison);
    - [Collaborators]: the external libraries ([toml], [packageurl],
      [cyclonedx]) as an interface;
    - the CycloneDX data model as records;
    - the parser itself, in a state-and-exception monad over the heap
      ([self]) and the diagnostic sink;
    - what the parser computes once the diagnostics are set aside, and the
      proof that the statements compute it;
    - the properties, and their instances at concrete lock files;
    - further properties of the two parsers, of the components and of their
      references, and their instances.

    Conventions of the model:
    - a call into a library returns a value or raises an exception of any
      class; the constructors of the plain data classes ([Component],
      [Property], [ExternalReference], [BomMetaData]) always return, and so
      do the methods of their sets but for the hashing of a property;
    - a debug callback is a function on the state of its sink: it returns;
    - [PoetryFileParser] reads its two files through a function from file
      names to the text of the file or the exception of [open] or [read]. *)

From Stdlib Require Import String Ascii ZArith List ListSet Bool Lia DecimalString.
From Stdlib Require Import DecimalPos Permutation.
Import ListNotations.
Open Scope string_scope.
Open Scope Z_scope.

Set Implicit Arguments.
#[local] Set Warnings "-register-all".

(* ------------------------------------------------------------------ *)
(** ** Python values, exceptions and builtins *)

Module Py.

(** A decoded TOML value.  A character of a string stands for a code point
    below 256.  A float is kept as the text [repr] gives for it and a
    date/time value as the text [str] gives for it: the parser never computes
    with either. *)
Inductive Val : Type :=
| VStr (s : string)
| VInt (z : Z)
| VBool (b : bool)
| VFloat (text : string)
| VTime (text : string)
| VList (l : list Val)
| VDict (d : list (string * Val)).

(** Exceptions, by class.  [CycloneDxModelException] stands for the class and
    its subclasses; [RuntimeError] for any class not otherwise listed. *)
Inductive exn : Type :=
| KeyError (key : Val)
| IndexError
| TypeError
| AttributeError
| ValueError
| CycloneDxModelException (detail : string)
| RuntimeError (cls : string).

(** The outcome of evaluating an expression: an exception or a value. *)
Definition result (A : Type) : Type := (exn + A)%type.

Definition raise {A} (e : exn) : result A := inl e.
Definition ok {A} (a : A) : result A := inr a.

Definition bind {A B} (r : result A) (k : A -> result B) : result B :=
  match r with
  | inl e => inl e
  | inr a => k a
  end.

Notation "'let?' x := r 'in' k" := (bind r (fun x => k))
  (at level 10, x name, r at level 100, k at level 200).

Fixpoint mapM {A B} (f : A -> result B) (xs : list A) : result (list B) :=
  match xs with
  | [] => ok []
  | x :: xs' => let? y := f x in let? ys := mapM f xs' in ok (y :: ys)
  end.

Definition is_CycloneDxModelException (e : exn) : bool :=
  match e with
  | CycloneDxModelException _ => true
  | _ => false
  end.

(** *** Equality of values (what [set.add] compares with) *)

Fixpoint Val_eq_dec (a b : Val) {struct a} : {a = b} + {a <> b}.
Proof.
  decide equality;
    try apply string_dec; try apply Z.eq_dec; try apply bool_dec.
  - apply (list_eq_dec Val_eq_dec).
  - refine (list_eq_dec _ d d0).
    intros [k1 v1] [k2 v2].
    destruct (string_dec k1 k2) as [Hk | Hk];
      [ destruct (Val_eq_dec v1 v2) as [Hv | Hv];
        [ left; congruence | right; congruence ]
      | right; congruence ].
Defined.

(** *** [str(v)] *)

(** [str] of a list or a dict prints the [repr] of the elements, which for
    date/time values is not determined by the value; it is a parameter. *)
Definition str (repr_container : Val -> string) (v : Val) : string :=
  match v with
  | VStr s => s
  | VInt z => NilZero.string_of_int (Z.to_int z)
  | VBool true => "True"
  | VBool false => "False"
  | VFloat text => text
  | VTime text => text
  | VList _ | VDict _ => repr_container v
  end.

(** *** [s.split(sep)] for a one-character separator *)

Fixpoint split (sep : ascii) (s : string) : list string :=
  match s with
  | EmptyString => [EmptyString]
  | String c s' =>
      if Ascii.eqb c sep then EmptyString :: split sep s'
      else match split sep s' with
           | h :: t => String c h :: t
           | [] => [String c EmptyString]
           end
  end.

(** *** [int(s)] for a string, base 10 *)

(** Whitespace [int] strips: tab, LF, VT, FF, CR, space, and NEL and NBSP.
    The bound that recent interpreters put on the number of digits is not
    modelled. *)
Definition is_space (c : ascii) : bool :=
  let n := nat_of_ascii c in
  (((9 <=? n) && (n <=? 13)) || (n =? 32) || (n =? 133) || (n =? 160))%nat.

Fixpoint lstrip (s : string) : string :=
  match s with
  | String c s' => if is_space c then lstrip s' else s
  | EmptyString => EmptyString
  end.

Fixpoint rstrip (s : string) : string :=
  match s with
  | EmptyString => EmptyString
  | String c s' =>
      match rstrip s' with
      | EmptyString => if is_space c then EmptyString else String c EmptyString
      | r => String c r
      end
  end.

Definition digit_of (c : ascii) : option Z :=
  let n := nat_of_ascii c in
  if ((48 <=? n) && (n <=? 57))%nat then Some (Z.of_nat n - 48) else None.

(** Digits, with single underscores allowed between two digits. *)
Fixpoint digits (acc : Z) (after_digit : bool) (s : string) : option Z :=
  match s with
  | EmptyString => if after_digit then Some acc else None
  | String c s' =>
      if Ascii.eqb c "_"
      then if after_digit then digits acc false s' else None
      else match digit_of c with
           | Some d => digits (10 * acc + d) true s'
           | None => None
           end
  end.

Definition int (s : string) : result Z :=
  let number :=
    match rstrip (lstrip s) with
    | String "+" r => digits 0 false r
    | String "-" r => option_map Z.opp (digits 0 false r)
    | r => digits 0 false r
    end in
  match number with
  | Some z => ok z
  | None => raise ValueError
  end.

(** *** Subscription [c[k]] *)

Fixpoint assoc {A} (k : string) (d : list (string * A)) : option A :=
  match d with
  | [] => None
  | (k', v) :: d' => if String.eqb k k' then Some v else assoc k d'
  end.

(** An index as [list] and [str] accept it: an [int], or a [bool] (a subclass). *)
Definition as_index (k : Val) : option Z :=
  match k with
  | VInt z => Some z
  | VBool b => Some (Z.b2z b)
  | _ => None
  end.

(** Negative indices count from the end. *)
Definition at_index {A} (l : list A) (i : Z) : option A :=
  let n := Z.of_nat (length l) in
  let j := if i <? 0 then i + n else i in
  if (0 <=? j) && (j <? n) then nth_error l (Z.to_nat j) else None.

Definition chars (s : string) : list Val :=
  map (fun c => VStr (String c EmptyString)) (list_ascii_of_string s).

Definition getitem (c k : Val) : result Val :=
  match c with
  | VDict d =>
      match k with
      | VStr s =>
          match assoc s d with
          | Some v => ok v
          | None => raise (KeyError k)
          end
      | VList _ | VDict _ => raise TypeError      (* unhashable *)
      | _ => raise (KeyError k)
      end
  | VList l =>
      match as_index k with
      | Some i =>
          match at_index l i with
          | Some v => ok v
          | None => raise IndexError
          end
      | None => raise TypeError
      end
  | VStr s =>
      match as_index k with
      | Some i =>
          match at_index (chars s) i with
          | Some v => ok v
          | None => raise IndexError
          end
      | None => raise TypeError
      end
  | VInt _ | VBool _ | VFloat _ | VTime _ => raise TypeError
  end.

(** *** [c.get(key)] and [c.get(key, default)]: only a dict has the method *)

Definition get (c : Val) (key : string) : result (option Val) :=
  match c with
  | VDict d => ok (assoc key d)
  | _ => raise AttributeError
  end.

Definition get_default (c : Val) (key : string) (default : Val) : result Val :=
  match c with
  | VDict d =>
      match assoc key d with
      | Some v => ok v
      | None => ok default
      end
  | _ => raise AttributeError
  end.

(** *** [iter(c)], as a [for] loop runs it *)

Definition iter (c : Val) : result (list Val) :=
  match c with
  | VList l => ok l
  | VDict d => ok (map (fun kv => VStr (fst kv)) d)
  | VStr s => ok (chars s)
  | VInt _ | VBool _ | VFloat _ | VTime _ => raise TypeError
  end.

(** *** Truthiness, [bool(v)] *)

Definition truthy (v : Val) : bool :=
  match v with
  | VStr s => negb (String.eqb s "")
  | VInt z => negb (z =? 0)
  | VBool b => b
  | VFloat text => negb (String.eqb text "0.0" || String.eqb text "-0.0")
  | VTime _ => true
  | VList l => match l with [] => false | _ => true end
  | VDict d => match d with [] => false | _ => true end
  end.

(** *** [hash(v)] returns for every value but a list or a dict *)

Definition hashable (v : Val) : bool :=
  match v with
  | VList _ | VDict _ => false
  | VStr _ | VInt _ | VBool _ | VFloat _ | VTime _ => true
  end.

(** *** [a >= b] on tuples of integers: lexicographic *)

Fixpoint tuple_ge (a b : list Z) : bool :=
  match a, b with
  | _, [] => true
  | [], _ :: _ => false
  | x :: a', y :: b' => if x =? y then tuple_ge a' b' else y <? x
  end.

End Py.

Import Py.

(* ------------------------------------------------------------------ *)
(** ** The external collaborators *)

(** What the parser imports from [toml], [packageurl] and [cyclonedx], and the
    one constant it takes from [._cdx_properties].  A call returns a value or
    raises; the classes have an equality, which [set.add] uses. *)
Class Collaborators : Type := {
  (** [toml.loads] *)
  load_toml : string -> result Val;
  (** [repr] of a list or dict, see [Py.str] *)
  repr_container : Val -> string;
  (** [packageurl.PackageURL]: the class, [PackageURL(type=, name=, version=)]
      and [purl.to_string()] *)
  PackageURL : Type;
  new_PackageURL : string -> Val -> Val -> result PackageURL;
  to_string : PackageURL -> string;
  (** [cyclonedx.model.XsUri]: the class and [XsUri(uri)] *)
  XsUri : Type;
  XsUri_eq_dec : forall a b : XsUri, {a = b} + {a <> b};
  new_XsUri : string -> result XsUri;
  (** [cyclonedx.model.HashType]: the class and [HashType.from_composite_str] *)
  HashType : Type;
  HashType_eq_dec : forall a b : HashType, {a = b} + {a <> b};
  from_composite_str : Val -> result HashType;
  (** [Component.get_pypi_url()], which reads the component's name and version *)
  pypi_url : Val -> Val -> result string;
  (** [PoetryProps.PackageGroup.value], the key of the group annotation *)
  PackageGroup : string
}.

(* ------------------------------------------------------------------ *)
(** ** The CycloneDX data model, as far as the parser builds it *)

Section Model.
Context {lib : Collaborators}.

Inductive ExternalReferenceType : Type :=
| DISTRIBUTION
| WEBSITE
| VCS
| OTHER.

Record ExternalReference : Type := {
  reference_type : ExternalReferenceType;
  url : XsUri;
  comment : string;
  hashes : list HashType
}.

Record Property : Type := {
  property_name : string;
  property_value : Val
}.

(** [Component(name=, bom_ref=, version=, purl=)]; [properties] and
    [external_references] are sets, kept here in order of first insertion. *)
Record Component : Type := {
  name : Val;
  version : Val;
  bom_ref : option string;
  purl : option PackageURL;
  properties : list Property;
  external_references : list ExternalReference
}.

Record BomMetaData : Type := {
  component : Component
}.

Definition ExternalReference_eq_dec (a b : ExternalReference) : {a = b} + {a <> b}.
Proof.
  decide equality.
  - apply (list_eq_dec HashType_eq_dec).
  - apply string_dec.
  - apply XsUri_eq_dec.
  - decide equality.
Defined.

Definition Property_eq_dec (a b : Property) : {a = b} + {a <> b}.
Proof.
  decide equality.
  - apply Val_eq_dec.
  - apply string_dec.
Defined.

Definition new_Component (name version : Val) (bom_ref : option string)
    (purl : option PackageURL) : Component :=
  {| name := name; version := version; bom_ref := bom_ref; purl := purl;
     properties := []; external_references := [] |}.

(** [component.properties.add(p)]: the set hashes the property, that is its
    name and its value, and [hash] raises [TypeError] for a value that is a
    list or a dict. *)
Definition properties_add (c : Component) (p : Property) : result Component :=
  if hashable (property_value p)
  then
    ok {| name := name c; version := version c; bom_ref := bom_ref c; purl := purl c;
          properties := set_add Property_eq_dec p (properties c);
          external_references := external_references c |}
  else raise TypeError.

(** [component.external_references.add(r)] *)
Definition external_references_add (c : Component) (r : ExternalReference) : Component :=
  {| name := name c; version := version c; bom_ref := bom_ref c; purl := purl c;
     properties := properties c;
     external_references := set_add ExternalReference_eq_dec r (external_references c) |}.

Definition get_pypi_url (c : Component) : result string :=
  pypi_url (name c) (version c).

(** The attributes of a parser object that [__init__] assigns. *)
Record Parser : Type := {
  _components : list Component;
  _metadata : option BomMetaData
}.

End Model.

(* ------------------------------------------------------------------ *)
(** ** Diagnostics *)

(** An argument of a debug message, formatted by the callback. *)
Inductive Arg : Type :=
| AStr (s : string)
| AVal (v : Val)
| ATuple (t : list Z)
| AExn (e : exn).

(** [DebugMessageCallback]: called with a format string and its arguments, it
    acts on the state of the sink it writes to. *)
Definition DebugMessageCallback (Sink : Type) : Type :=
  string -> list Arg -> Sink -> Sink.

(** [quiet], the default callback: messages are dropped. *)
Definition quiet {Sink : Type} : DebugMessageCallback Sink :=
  fun _ _ s => s.

(* ------------------------------------------------------------------ *)
(** ** Statements: heap, sink and exceptions *)

Section Monad.
Context {lib : Collaborators}.
Variable Sink : Type.

(** What a statement of [__init__] can change: the attributes of [self] and
    the sink of the debug callback. *)
Record Heap : Type := {
  self : Parser;
  sink : Sink
}.

(** A statement returns a value or raises; the heap it leaves is kept in both
    cases. *)
Definition M (A : Type) : Type := Heap -> result A * Heap.

Definition ret {A} (a : A) : M A := fun h => (ok a, h).

Definition bindM {A B} (m : M A) (k : A -> M B) : M B :=
  fun h =>
    match m h with
    | (inl e, h') => (inl e, h')
    | (inr a, h') => k a h'
    end.

(** An expression that touches neither the heap nor the sink. *)
Definition eval {A} (r : result A) : M A := fun h => (r, h).

(** [try: body / except <class> as error: handler error] *)
Definition try_except {A} (body : M A) (class : exn -> bool) (handler : exn -> M A) : M A :=
  fun h =>
    match body h with
    | (inl e, h') => if class e then handler e h' else (inl e, h')
    | (inr a, h') => (inr a, h')
    end.

(** [for x in xs: acc = body acc x], for a body that updates local objects. *)
Fixpoint for_each {A B} (xs : list A) (body : B -> A -> M B) (acc : B) : M B :=
  match xs with
  | [] => ret acc
  | x :: xs' => bindM (body acc x) (for_each xs' body)
  end.

(** A statement that returns [r] whatever the heap and leaves [self] alone. *)
Definition computes {A} (m : M A) (r : result A) : Prop :=
  forall h, fst (m h) = r /\ self (snd (m h)) = self h.

End Monad.

Arguments ret {lib Sink A} a.
Arguments eval {lib Sink A} r.

Notation "x <- m ;; k" := (bindM m (fun x => k))
  (at level 61, m at next level, right associativity).
Notation "m ;; k" := (bindM m (fun _ => k))
  (at level 61, right associativity).

(* ------------------------------------------------------------------ *)
(** ** [PoetryParser] *)

Section PoetryParser.
Context {lib : Collaborators}.
Variable Sink : Type.
Variable debug_message : DebugMessageCallback Sink.

(** A call of the callback: only the sink changes. *)
Definition debug (fmt : string) (args : list Arg) : M Sink unit :=
  fun h => (ok tt, {| self := self h; sink := debug_message fmt args (sink h) |}).

(** [self._components.append(component)] *)
Definition components_append (c : Component) : M Sink unit :=
  fun h =>
    (ok tt,
     {| self := {| _components := _components (self h) ++ [c];
                   _metadata := _metadata (self h) |};
        sink := sink h |}).

(** [self._metadata = m] *)
Definition set_metadata (m : BomMetaData) : M Sink unit :=
  fun h =>
    (ok tt,
     {| self := {| _components := _components (self h); _metadata := Some m |};
        sink := sink h |}).

(** Lines 61-64: the schema generation,
    [tuple(int(p) for p in str(poetry_lock_metadata['lock-version']).split('.'))],
    and [(0,)] on any exception. *)
Definition poetry_lock_version (poetry_lock_metadata : Val) : list Z :=
  match
    (let? lock_version := getitem poetry_lock_metadata (VStr "lock-version") in
     mapM Py.int (split "." (Py.str repr_container lock_version)))
  with
  | inr t => t
  | inl _ => [0]
  end.

(** Lines 90-95, the argument of [external_references.add], evaluated left to
    right: [url], [comment], [hashes]. *)
Definition distribution_reference (component : Component) (file_metadata : Val)
    : result ExternalReference :=
  let? location := get_pypi_url component in
  let? url := new_XsUri location in
  let? file := getitem file_metadata (VStr "file") in
  let comment := "Distribution file: " ++ Py.str repr_container file in
  let? composite := getitem file_metadata (VStr "hash") in
  let? hash := from_composite_str composite in
  ok {| reference_type := DISTRIBUTION; url := url; comment := comment;
        hashes := [hash] |}.

(** Lines 88-99, the body of the loop over [package_files]. *)
Definition process_file_metadata (component : Component) (file_metadata : Val)
    : M Sink Component :=
  debug "processing file_metadata: {!r}" [AVal file_metadata] ;;
  try_except
    (reference <- eval (distribution_reference component file_metadata) ;;
     ret (external_references_add component reference))
    is_CycloneDxModelException
    (fun error =>
       debug "Warning: suppressed {!r}" [AExn error] ;;
       ret component).

(** Lines 83-85: where the file descriptors of a package are. *)
Definition package_files (lock_version : list Z) (poetry_lock_metadata package : Val)
    : result Val :=
  if tuple_ge lock_version [2]
  then getitem package (VStr "files")
  else
    let? files := getitem poetry_lock_metadata (VStr "files") in
    let? name := getitem package (VStr "name") in
    getitem files name.

(** Lines 71-81: the component of a package, before its references. *)
Definition package_component (use_purl_bom_ref : bool) (package : Val) : result Component :=
  let? purl :=
    (let? name := getitem package (VStr "name") in
     let? version := getitem package (VStr "version") in
     new_PackageURL "pypi" name version) in
  let bom_ref := if use_purl_bom_ref then Some (to_string purl) else None in
  let? component :=
    (let? name := getitem package (VStr "name") in
     let? version := getitem package (VStr "version") in
     ok (new_Component name version bom_ref (Some purl))) in
  let? package_category := get package "category" in
  match package_category with
  | Some category =>
      if truthy category
      then properties_add component
             {| property_name := PackageGroup; property_value := category |}
      else ok component
  | None => ok component
  end.

(** Lines 69-99: the component of one package entry, with its references. *)
Definition package_entry_component (use_purl_bom_ref : bool) (lock_version : list Z)
    (poetry_lock_metadata : Val) (package : Val) : M Sink Component :=
  debug "processing package: {!r}" [AVal package] ;;
  component <- eval (package_component use_purl_bom_ref package) ;;
  debug "detecting package_files" [] ;;
  files <- eval (package_files lock_version poetry_lock_metadata package) ;;
  debug "processing package_files: {!r}" [AVal files] ;;
  descriptors <- eval (iter files) ;;
  for_each descriptors process_file_metadata component.

(** Lines 69-100, the body of the loop over [poetry_lock['package']]. *)
Definition process_package (use_purl_bom_ref : bool) (lock_version : list Z)
    (poetry_lock_metadata : Val) (_ : unit) (package : Val) : M Sink unit :=
  component <-
    package_entry_component use_purl_bom_ref lock_version poetry_lock_metadata package ;;
  components_append component.

(** Lines 102-108: the root metadata.  An empty string is false. *)
Definition root_metadata (pyproject_toml_contents : string) : M Sink unit :=
  if String.eqb pyproject_toml_contents ""
  then ret tt
  else
    poetry_toml <- eval (load_toml pyproject_toml_contents) ;;
    poetry_toml_metadata <-
      eval (let? tool := get_default poetry_toml "tool" (VStr "") in
            get_default tool "poetry" (VStr "")) ;;
    metadata_component <-
      eval (let? name := getitem poetry_toml_metadata (VStr "name") in
            let? version := getitem poetry_toml_metadata (VStr "version") in
            ok (new_Component name version None None)) ;;
    set_metadata {| component := metadata_component |}.

(** Lines 54-108: [__init__], with [class_name] for [self.__class__.__name__]. *)
Definition PoetryParser_init (class_name : string) (poetry_lock_contents : string)
    (use_purl_bom_ref : bool) (pyproject_toml_contents : string) : M Sink unit :=
  debug "init {}" [AStr class_name] ;;
  debug "loading poetry_lock_contents" [] ;;
  poetry_lock <- eval (load_toml poetry_lock_contents) ;;
  poetry_lock_metadata <- eval (getitem poetry_lock (VStr "metadata")) ;;
  let lock_version := poetry_lock_version poetry_lock_metadata in
  debug "detected poetry_lock_version: {!r}" [ATuple lock_version] ;;
  debug "processing poetry_lock" [] ;;
  packages <- eval (let? package := getitem poetry_lock (VStr "package") in iter package) ;;
  for_each packages
    (process_package use_purl_bom_ref lock_version poetry_lock_metadata) tt ;;
  root_metadata pyproject_toml_contents.

(** The attributes of a fresh object, as [super().__init__()] leaves them. *)
Definition fresh : Parser := {| _components := []; _metadata := None |}.

(** [PoetryParser(poetry_lock_contents, use_purl_bom_ref, debug_message=...,
    pyproject_toml_contents=...)]: the caller gets the object when
    [__init__] returns and the exception when it raises, and the sink as the
    call left it. *)
Definition PoetryParser (poetry_lock_contents : string) (use_purl_bom_ref : bool)
    (pyproject_toml_contents : string) (s : Sink) : result Parser * Sink :=
  match PoetryParser_init "PoetryParser" poetry_lock_contents use_purl_bom_ref
          pyproject_toml_contents {| self := fresh; sink := s |} with
  | (inr _, h) => (ok (self h), sink h)
  | (inl e, h) => (raise e, sink h)
  end.

End PoetryParser.

(* ------------------------------------------------------------------ *)
(** ** [PoetryGroupWellknown] and [PoetryFileParser] *)

(** Lines 36-42: the enumeration of the well-known groups and its values. *)
Inductive PoetryGroupWellknown : Type :=
| Main
| Dev.

Definition PoetryGroupWellknown_value (group : PoetryGroupWellknown) : string :=
  match group with
  | Main => "main"
  | Dev => "dev"
  end.

Section PoetryFileParser.
Context {lib : Collaborators}.
Variable Sink : Type.
Variable debug_message : DebugMessageCallback Sink.

(** [open(filename)] followed by [read()] on the file: the text of the file,
    or the exception either of them raises. *)
Variable read_text : string -> result string.

(** The default of [poetry_toml_filename]. *)
Definition default_poetry_toml_filename : string := "".

(** Lines 120-127: the lock file is opened and read, then the manifest file,
    and [PoetryParser.__init__] runs on the two texts; [self.__class__] is
    [PoetryFileParser] there. *)
Definition PoetryFileParser_init (poetry_lock_filename : string)
    (use_purl_bom_ref : bool) (poetry_toml_filename : string) : M Sink unit :=
  debug debug_message "open file: {}" [AStr poetry_lock_filename] ;;
  poetry_lock_contents <- eval (read_text poetry_lock_filename) ;;
  pyproject_toml_contents <- eval (read_text poetry_toml_filename) ;;
  PoetryParser_init debug_message "PoetryFileParser" poetry_lock_contents
    use_purl_bom_ref pyproject_toml_contents.

(** [PoetryFileParser(poetry_lock_filename, use_purl_bom_ref,
    debug_message=..., poetry_toml_filename=...)], as the caller sees it. *)
Definition PoetryFileParser (poetry_lock_filename : string) (use_purl_bom_ref : bool)
    (poetry_toml_filename : string) (s : Sink) : result Parser * Sink :=
  match PoetryFileParser_init poetry_lock_filename use_purl_bom_ref
          poetry_toml_filename {| self := fresh; sink := s |} with
  | (inr _, h) => (ok (self h), sink h)
  | (inl e, h) => (raise e, sink h)
  end.

End PoetryFileParser.

(* ------------------------------------------------------------------ *)
(** ** [PoetryParser] with a callback that may raise *)

(** The statements of [__init__] once more, lines 55-108, for a callback that
    returns or raises: a call of [debug_message] stands in the source
    without a [try] of its own, the one of line 98 inside the handler of
    line 96.  The callback reads the objects it is given; that it might
    change them is not modelled. *)
Module Raising.

Section PoetryParser.
Context {lib : Collaborators}.
Variable Sink : Type.

(** [DebugMessageCallback]: called with a format string and its arguments,
    the callable returns [None] or raises, and leaves its sink in a new
    state either way. *)
Definition DebugMessageCallback : Type :=
  string -> list Arg -> Sink -> result unit * Sink.

Variable debug_message : DebugMessageCallback.

(** A call of the callback. *)
Definition debug (fmt : string) (args : list Arg) : M Sink unit :=
  fun h =>
    let (r, s) := debug_message fmt args (sink h) in
    (r, {| self := self h; sink := s |}).

(** Lines 88-99, the body of the loop over [package_files]. *)
Definition process_file_metadata (component : Component) (file_metadata : Val)
    : M Sink Component :=
  debug "processing file_metadata: {!r}" [AVal file_metadata] ;;
  try_except
    (reference <- eval (distribution_reference component file_metadata) ;;
     ret (external_references_add component reference))
    is_CycloneDxModelException
    (fun error =>
       debug "Warning: suppressed {!r}" [AExn error] ;;
       ret component).

(** Lines 69-99: the component of one package entry, with its references. *)
Definition package_entry_component (use_purl_bom_ref : bool) (lock_version : list Z)
    (poetry_lock_metadata : Val) (package : Val) : M Sink Component :=
  debug "processing package: {!r}" [AVal package] ;;
  component <- eval (package_component use_purl_bom_ref package) ;;
  debug "detecting package_files" [] ;;
  files <- eval (package_files lock_version poetry_lock_metadata package) ;;
  debug "processing package_files: {!r}" [AVal files] ;;
  descriptors <- eval (iter files) ;;
  for_each descriptors process_file_metadata component.

(** Lines 69-100, the body of the loop over [poetry_lock['package']]. *)
Definition process_package (use_purl_bom_ref : bool) (lock_version : list Z)
    (poetry_lock_metadata : Val) (_ : unit) (package : Val) : M Sink unit :=
  component <-
    package_entry_component use_purl_bom_ref lock_version poetry_lock_metadata package ;;
  components_append component.

(** Lines 54-108: [__init__]. *)
Definition PoetryParser_init (class_name : string) (poetry_lock_contents : string)
    (use_purl_bom_ref : bool) (pyproject_toml_contents : string) : M Sink unit :=
  debug "init {}" [AStr class_name] ;;
  debug "loading poetry_lock_contents" [] ;;
  poetry_lock <- eval (load_toml poetry_lock_contents) ;;
  poetry_lock_metadata <- eval (getitem poetry_lock (VStr "metadata")) ;;
  let lock_version := poetry_lock_version poetry_lock_metadata in
  debug "detected poetry_lock_version: {!r}" [ATuple lock_version] ;;
  debug "processing poetry_lock" [] ;;
  packages <- eval (let? package := getitem poetry_lock (VStr "package") in iter package) ;;
  for_each packages
    (process_package use_purl_bom_ref lock_version poetry_lock_metadata) tt ;;
  root_metadata pyproject_toml_contents.

(** The call of the class, as its caller sees it. *)
Definition PoetryParser (poetry_lock_contents : string) (use_purl_bom_ref : bool)
    (pyproject_toml_contents : string) (s : Sink) : result Parser * Sink :=
  match PoetryParser_init "PoetryParser" poetry_lock_contents use_purl_bom_ref
          pyproject_toml_contents {| self := fresh; sink := s |} with
  | (inr _, h) => (ok (self h), sink h)
  | (inl e, h) => (raise e, sink h)
  end.

End PoetryParser.

(** A callback that returns from every call. *)
Definition returning {Sink : Type} (callback : string -> list Arg -> Sink -> Sink)
    : DebugMessageCallback Sink :=
  fun fmt args s => (ok tt, callback fmt args s).

(** What a callback does to its sink. *)
Definition on_sink {Sink : Type} (callback : DebugMessageCallback Sink)
    : string -> list Arg -> Sink -> Sink :=
  fun fmt args s => snd (callback fmt args s).

(** The run of a relation [R] on results that is kept while nothing raises:
    when the first statement returns, so does the second, with the same
    value and the same attributes of [self]. *)
Definition follows {lib : Collaborators} {Sink Sink' A : Type}
    (m : M Sink A) (m' : M Sink' A) : Prop :=
  forall h h',
    self h = self h' ->
    forall a, fst (m h) = inr a ->
              fst (m' h') = inr a /\ self (snd (m h)) = self (snd (m' h')).

(** A callback that writes the format strings to a log and raises when it
    is given a warning. *)
Definition alarm : DebugMessageCallback (list string) :=
  fun fmt _ log =>
    (if String.prefix "Warning" fmt then raise (RuntimeError "Warning") else ok tt,
     (log ++ [fmt])%list).

End Raising.

(* ------------------------------------------------------------------ *)
(** ** What the parser computes, without the diagnostics *)

Section Denotation.
Context {lib : Collaborators}.

(** The loop over the file descriptors: a reference that cannot be built
    with a [CycloneDxModelException] is left out, any other exception ends
    the loop. *)
Fixpoint add_references (component : Component) (descriptors : list Val)
    : result Component :=
  match descriptors with
  | [] => ok component
  | file_metadata :: rest =>
      match distribution_reference component file_metadata with
      | inr reference =>
          add_references (external_references_add component reference) rest
      | inl error =>
          if is_CycloneDxModelException error
          then add_references component rest
          else raise error
      end
  end.

(** The component of one package entry. *)
Definition component_of_package (use_purl_bom_ref : bool) (lock_version : list Z)
    (poetry_lock_metadata package : Val) : result Component :=
  let? component := package_component use_purl_bom_ref package in
  let? files := package_files lock_version poetry_lock_metadata package in
  let? descriptors := iter files in
  add_references component descriptors.

(** The package entries of a decoded lock document, in the order the loop
    visits them. *)
Definition package_entries (poetry_lock : Val) : result (list Val) :=
  let? package := getitem poetry_lock (VStr "package") in iter package.

(** The root metadata of a manifest text. *)
Definition metadata_of_manifest (pyproject_toml_contents : string)
    : result (option BomMetaData) :=
  if String.eqb pyproject_toml_contents ""
  then ok None
  else
    let? poetry_toml := load_toml pyproject_toml_contents in
    let? tool := get_default poetry_toml "tool" (VStr "") in
    let? poetry_toml_metadata := get_default tool "poetry" (VStr "") in
    let? name := getitem poetry_toml_metadata (VStr "name") in
    let? version := getitem poetry_toml_metadata (VStr "version") in
    ok (Some {| component := new_Component name version None None |}).

(** The whole conversion. *)
Definition conversion (poetry_lock_contents : string) (use_purl_bom_ref : bool)
    (pyproject_toml_contents : string) : result Parser :=
  let? poetry_lock := load_toml poetry_lock_contents in
  let? poetry_lock_metadata := getitem poetry_lock (VStr "metadata") in
  let lock_version := poetry_lock_version poetry_lock_metadata in
  let? packages := package_entries poetry_lock in
  let? components :=
    mapM (component_of_package use_purl_bom_ref lock_version poetry_lock_metadata)
      packages in
  let? metadata := metadata_of_manifest pyproject_toml_contents in
  ok {| _components := components; _metadata := metadata |}.

End Denotation.

(* ------------------------------------------------------------------ *)
(** ** A stand-in for the libraries, for the concrete runs below *)

Module Sample.

(** Lock and manifest texts with the values [toml.loads] decodes them to. *)
Definition documents : Type := list (string * Val).

Definition loads (docs : documents) (text : string) : result Val :=
  match assoc text docs with
  | Some v => ok v
  | None => raise (RuntimeError "TomlDecodeError")
  end.

(** [PackageURL] wants a non-empty string as name and a string as version. *)
Definition package_url (type : string) (name version : Val)
    : result (string * string * string) :=
  match name, version with
  | VStr n, VStr v =>
      if String.eqb n "" then raise ValueError else ok (type, n, v)
  | _, _ => raise ValueError
  end.

Definition purl_string (p : string * string * string) : string :=
  let '(type, n, v) := p in "pkg:" ++ type ++ "/" ++ n ++ "@" ++ v.

(** [algorithm:digest] with a known algorithm; anything else is the model's
    [UnknownHashTypeException]. *)
Definition composite_hash (v : Val) : result (string * string) :=
  match v with
  | VStr s =>
      match split ":" s with
      | [algorithm; digest] =>
          if existsb (String.eqb algorithm) ["md5"; "sha1"; "sha256"; "sha384"; "sha512"]
          then ok (algorithm, digest)
          else raise (CycloneDxModelException "UnknownHashTypeException")
      | _ => raise (CycloneDxModelException "UnknownHashTypeException")
      end
  | _ => raise AttributeError
  end.

Definition render (v : Val) : string :=
  match v with
  | VList _ => "[...]"
  | VDict _ => "{...}"
  | _ => Py.str (fun _ => "") v
  end.

Definition project_url (name version : Val) : result string :=
  ok ("https://pypi.org/project/" ++ render name ++ "/" ++ render version).

Definition pair_eq_dec (a b : string * string) : {a = b} + {a <> b}.
Proof. decide equality; apply string_dec. Defined.

Definition library (docs : documents) : Collaborators :=
  {| load_toml := loads docs;
     repr_container := render;
     PackageURL := string * string * string;
     new_PackageURL := package_url;
     to_string := purl_string;
     XsUri := string;
     XsUri_eq_dec := string_dec;
     new_XsUri := fun s => ok s;
     HashType := string * string;
     HashType_eq_dec := pair_eq_dec;
     from_composite_str := composite_hash;
     pypi_url := project_url;
     PackageGroup := "cdx:poetry:package:group" |}.

End Sample.

(* ------------------------------------------------------------------ *)
(** ** Lock and manifest documents for the concrete runs *)

Module Documents.

(** A well-formed entry of the [requests] package with one distribution file. *)
Definition requests (composite_hash : string) : Val :=
  VDict [("name", VStr "requests");
         ("version", VStr "2.31.0");
         ("category", VStr "main");
         ("files",
          VList [VDict [("file", VStr "requests-2.31.0-py3-none-any.whl");
                        ("hash", VStr composite_hash)]])].

Definition requests_hash : string :=
  "sha256:58cd2187c01e70e6e26505bca751777aa9f2ee0b7f4300988b709f44e013003f".

(** A lock file of generation 2 with that one package. *)
Definition requests_lock_text : string :=
"[[package]]
name = 'requests'
version = '2.31.0'
category = 'main'
files = [
    {file = 'requests-2.31.0-py3-none-any.whl', hash = 'sha256:58cd2187c01e70e6e26505bca751777aa9f2ee0b7f4300988b709f44e013003f'},
]

[metadata]
lock-version = '2.0'
".

Definition requests_lock : Val :=
  VDict [("package", VList [requests requests_hash]);
         ("metadata", VDict [("lock-version", VStr "2.0")])].

(** A lock file of generation 2 in which the same name and version come
    twice, the second time with a file whose hash has no known algorithm. *)
Definition twice_lock_text : string :=
"[[package]]
name = 'six'
version = '1.16.0'
files = [
    {file = 'six-1.16.0.tar.gz', hash = 'sha256:1e61c37477a1626458e36f7b1d82aa5c9b094fa4802892072e49de9c60c4c926'},
]

[[package]]
name = 'six'
version = '1.16.0'
files = [
    {file = 'six-1.16.0.tar.gz', hash = 'sha256:1e61c37477a1626458e36f7b1d82aa5c9b094fa4802892072e49de9c60c4c926'},
    {file = 'six-1.16.0.zip', hash = 'not-a-valid-hash'},
]

[metadata]
lock-version = '2.0'
".

Definition six_tar : Val :=
  VDict [("file", VStr "six-1.16.0.tar.gz");
         ("hash", VStr "sha256:1e61c37477a1626458e36f7b1d82aa5c9b094fa4802892072e49de9c60c4c926")].

Definition six_zip : Val :=
  VDict [("file", VStr "six-1.16.0.zip"); ("hash", VStr "not-a-valid-hash")].

Definition six (files : list Val) : Val :=
  VDict [("name", VStr "six"); ("version", VStr "1.16.0"); ("files", VList files)].

Definition twice_lock : Val :=
  VDict [("package", VList [six [six_tar]; six [six_tar; six_zip]]);
         ("metadata", VDict [("lock-version", VStr "2.0")])].

(** A lock file of generation 1 whose table of files has no row for its
    package. *)
Definition norow_lock_text : string :=
"[[package]]
name = 'foo'
version = '1.0'

[metadata]
lock-version = '1.1'

[metadata.files]
bar = []
".

Definition norow_lock : Val :=
  VDict [("package", VList [VDict [("name", VStr "foo"); ("version", VStr "1.0")]]);
         ("metadata",
          VDict [("lock-version", VStr "1.1");
                 ("files", VDict [("bar", VList [])])])].

(** The same package in a lock file of generation 1 and of generation 2. *)
Definition old_lock_text : string :=
"[[package]]
name = 'six'
version = '1.16.0'
category = 'dev'

[metadata]
lock-version = '1.1'

[metadata.files]
six = [
    {file = 'six-1.16.0.tar.gz', hash = 'sha256:1e61c37477a1626458e36f7b1d82aa5c9b094fa4802892072e49de9c60c4c926'},
]
".

Definition old_lock : Val :=
  VDict [("package",
          VList [VDict [("name", VStr "six"); ("version", VStr "1.16.0");
                        ("category", VStr "dev")]]);
         ("metadata",
          VDict [("lock-version", VStr "1.1");
                 ("files", VDict [("six", VList [six_tar])])])].

Definition new_lock_text : string :=
"[[package]]
name = 'six'
version = '1.16.0'
category = 'dev'
files = [
    {file = 'six-1.16.0.tar.gz', hash = 'sha256:1e61c37477a1626458e36f7b1d82aa5c9b094fa4802892072e49de9c60c4c926'},
]

[metadata]
lock-version = '2.0'
".

Definition new_lock : Val :=
  VDict [("package",
          VList [VDict [("name", VStr "six"); ("version", VStr "1.16.0");
                        ("category", VStr "dev"); ("files", VList [six_tar])]]);
         ("metadata", VDict [("lock-version", VStr "2.0")])].

(** A lock file of generation 2 whose second entry has no [name], and one
    whose only entry has no [files]. *)
Definition noname_lock_text : string :=
"[[package]]
name = 'six'
version = '1.16.0'
files = []

[[package]]
version = '0.1'
files = []

[[package]]
name = 'idna'
version = '3.4'
files = []

[metadata]
lock-version = '2.0'
".

Definition noname_lock : Val :=
  VDict [("package",
          VList [six [];
                 VDict [("version", VStr "0.1"); ("files", VList [])];
                 VDict [("name", VStr "idna"); ("version", VStr "3.4");
                        ("files", VList [])]]);
         ("metadata", VDict [("lock-version", VStr "2.0")])].

Definition nofiles_lock_text : string :=
"[[package]]
name = 'six'
version = '1.16.0'

[metadata]
lock-version = '2.0'
".

Definition nofiles_lock : Val :=
  VDict [("package", VList [VDict [("name", VStr "six"); ("version", VStr "1.16.0")]]);
         ("metadata", VDict [("lock-version", VStr "2.0")])].

(** Manifests: one with name and version, one without name. *)
Definition manifest_text : string :=
"[tool.poetry]
name = 'demo'
version = '0.1.0'
".

Definition manifest : Val :=
  VDict [("tool",
          VDict [("poetry", VDict [("name", VStr "demo"); ("version", VStr "0.1.0")])])].

Definition noname_manifest_text : string :=
"[tool.poetry]
version = '0.1.0'
".

Definition noname_manifest : Val :=
  VDict [("tool", VDict [("poetry", VDict [("version", VStr "0.1.0")])])].

(** A lock file without packages and with a [lock-version] that is no number. *)
Definition empty_lock_text : string :=
"package = []

[metadata]
lock-version = 'garbage'
".

Definition empty_lock : Val :=
  VDict [("package", VList []);
         ("metadata", VDict [("lock-version", VStr "garbage")])].

Definition decoded : Sample.documents :=
  [(empty_lock_text, empty_lock);
   (requests_lock_text, requests_lock);
   (twice_lock_text, twice_lock);
   (norow_lock_text, norow_lock);
   (old_lock_text, old_lock);
   (new_lock_text, new_lock);
   (noname_lock_text, noname_lock);
   (nofiles_lock_text, nofiles_lock);
   (manifest_text, manifest);
   (noname_manifest_text, noname_manifest)].

Definition library : Collaborators := Sample.library decoded.

(** The callback that keeps the format strings it is called with. *)
Definition recorder : DebugMessageCallback (list string) :=
  fun fmt _ log => (log ++ [fmt])%list.

End Documents.

(* ------------------------------------------------------------------ *)
(** ** More documents, a directory, and a library that checks its URLs *)

Module MoreDocuments.
Import Documents.

(** A lock file without [metadata], and one without [package]. *)
Definition headless_lock_text : string :=
"[[package]]
name = 'six'
version = '1.16.0'
files = []
".

Definition headless_lock : list (string * Val) :=
  [("package", VList [six []])].

Definition bodiless_lock_text : string :=
"[metadata]
lock-version = '2.0'
".

Definition bodiless_lock : list (string * Val) :=
  [("metadata", VDict [("lock-version", VStr "2.0")])].

(** A lock file in which [package] is one table. *)
Definition table_lock_text : string :=
"[package]
name = 'six'
version = '1.16.0'
files = []

[metadata]
lock-version = '2.0'
".

Definition table_lock : Val :=
  VDict [("package",
          VDict [("name", VStr "six"); ("version", VStr "1.16.0"); ("files", VList [])]);
         ("metadata", VDict [("lock-version", VStr "2.0")])].

(** A lock file with the files on the entry, whose [lock-version] is no
    number. *)
Definition unversioned_lock_text : string :=
"[[package]]
name = 'six'
version = '1.16.0'
files = [
    {file = 'six-1.16.0.tar.gz', hash = 'sha256:1e61c37477a1626458e36f7b1d82aa5c9b094fa4802892072e49de9c60c4c926'},
]

[metadata]
lock-version = 'garbage'
".

Definition unversioned_lock : Val :=
  VDict [("package", VList [six [six_tar]]);
         ("metadata", VDict [("lock-version", VStr "garbage")])].

(** The entry of [requests] with more fields, in another order. *)
Definition requests_described : Val :=
  VDict [("name", VStr "requests");
         ("version", VStr "2.31.0");
         ("description", VStr "Python HTTP for Humans.");
         ("category", VStr "main");
         ("optional", VBool false);
         ("python-versions", VStr ">=3.7");
         ("files",
          VList [VDict [("file", VStr "requests-2.31.0-py3-none-any.whl");
                        ("hash", VStr requests_hash)]])].

(** An entry whose category is a list of groups. *)
Definition grouped : Val :=
  VDict [("name", VStr "six"); ("version", VStr "1.16.0");
         ("category", VList [VStr "dev"; VStr "docs"]); ("files", VList [])].

(** A descriptor without [hash], and an entry whose name has a space. *)
Definition six_nohash : Val :=
  VDict [("file", VStr "six-1.16.0.tar.gz")].

Definition spaced (files : list Val) : Val :=
  VDict [("name", VStr "my package"); ("version", VStr "1.0"); ("files", VList files)].

(** The metadata of a lock file of generation 2. *)
Definition second : Val := VDict [("lock-version", VStr "2.0")].

Definition decoded : Sample.documents :=
  [(headless_lock_text, VDict headless_lock);
   (bodiless_lock_text, VDict bodiless_lock);
   (table_lock_text, table_lock);
   (unversioned_lock_text, unversioned_lock);
   (requests_lock_text, requests_lock);
   (manifest_text, manifest)].

Definition library : Collaborators := Sample.library decoded.

(** A directory with the lock file and the manifest of the [requests]
    example, and no file without a name. *)
Definition directory : string -> result string :=
  fun filename =>
    if String.eqb filename "poetry.lock" then ok requests_lock_text
    else if String.eqb filename "pyproject.toml" then ok manifest_text
    else raise (RuntimeError "FileNotFoundError").

(** A fresh object and the sink of the callback that records, before the
    first call. *)
Definition empty : @Heap library (list string) := {| self := fresh; sink := [] |}.

(** [XsUri] as a library that refuses a URL with a space in it. *)
Definition checked_uri (s : string) : result string :=
  if existsb (Ascii.eqb " ") (list_ascii_of_string s)
  then raise (CycloneDxModelException "InvalidUriException")
  else ok s.

Definition checking_library : Collaborators :=
  {| load_toml := Sample.loads decoded;
     repr_container := Sample.render;
     PackageURL := string * string * string;
     new_PackageURL := Sample.package_url;
     to_string := Sample.purl_string;
     XsUri := string;
     XsUri_eq_dec := string_dec;
     new_XsUri := checked_uri;
     HashType := string * string;
     HashType_eq_dec := Sample.pair_eq_dec;
     from_composite_str := Sample.composite_hash;
     pypi_url := Sample.project_url;
     PackageGroup := "cdx:poetry:package:group" |}.

(** A lock file whose second file has the hash [sha256], without colon. *)
Definition colon_lock_text : string :=
"[[package]]
name = 'six'
version = '1.16.0'
files = [
    {file = 'six-1.16.0.tar.gz', hash = 'sha256:1e61c37477a1626458e36f7b1d82aa5c9b094fa4802892072e49de9c60c4c926'},
    {file = 'six-1.16.0.zip', hash = 'sha256'},
]

[metadata]
lock-version = '2.0'
".

Definition colon_lock : Val :=
  VDict [("package",
          VList [six [six_tar;
                      VDict [("file", VStr "six-1.16.0.zip"); ("hash", VStr "sha256")]]]);
         ("metadata", VDict [("lock-version", VStr "2.0")])].

(** [HashType.from_composite_str] as a library that splits the string at the
    colons, looks at the algorithm before the first and takes the part
    after it as digest: for a known algorithm without a colon the index of
    the digest is out of range. *)
Definition split_hash (v : Val) : result (string * string) :=
  match v with
  | VStr s =>
      match split ":" s with
      | algorithm :: parts =>
          if existsb (String.eqb algorithm) ["md5"; "sha1"; "sha256"; "sha384"; "sha512"]
          then
            match parts with
            | digest :: _ => ok (algorithm, digest)
            | [] => raise IndexError
            end
          else raise (CycloneDxModelException "UnknownHashTypeException")
      | [] => raise (CycloneDxModelException "UnknownHashTypeException")
      end
  | _ => raise AttributeError
  end.

Definition splitting_library : Collaborators :=
  {| load_toml := Sample.loads [(colon_lock_text, colon_lock)];
     repr_container := Sample.render;
     PackageURL := string * string * string;
     new_PackageURL := Sample.package_url;
     to_string := Sample.purl_string;
     XsUri := string;
     XsUri_eq_dec := string_dec;
     new_XsUri := fun s => ok s;
     HashType := string * string;
     HashType_eq_dec := Sample.pair_eq_dec;
     from_composite_str := split_hash;
     pypi_url := Sample.project_url;
     PackageGroup := "cdx:poetry:package:group" |}.

End MoreDocuments.

(* ------------------------------------------------------------------ *)
(** ** Decimal strings *)

(** Every character of the string passes the test. *)
Fixpoint all_chars (test : ascii -> bool) (s : string) : bool :=
  match s with
  | EmptyString => true
  | String c s' => test c && all_chars test s'
  end.

(** A character that is neither whitespace for [int] nor the dot. *)
Definition plain (c : ascii) : bool :=
  negb (is_space c) && negb (Ascii.eqb c ".").

(** The number a string of decimal digits stands for, after [acc]. *)
Fixpoint uint_value (acc : Z) (d : Decimal.uint) : Z :=
  match d with
  | Decimal.Nil => acc
  | Decimal.D0 d => uint_value (10 * acc + 0) d
  | Decimal.D1 d => uint_value (10 * acc + 1) d
  | Decimal.D2 d => uint_value (10 * acc + 2) d
  | Decimal.D3 d => uint_value (10 * acc + 3) d
  | Decimal.D4 d => uint_value (10 * acc + 4) d
  | Decimal.D5 d => uint_value (10 * acc + 5) d
  | Decimal.D6 d => uint_value (10 * acc + 6) d
  | Decimal.D7 d => uint_value (10 * acc + 7) d
  | Decimal.D8 d => uint_value (10 * acc + 8) d
  | Decimal.D9 d => uint_value (10 * acc + 9) d
  end.

(* ------------------------------------------------------------------ *)
(** ** Vocabulary of the properties *)

Section Vocabulary.
Context {lib : Collaborators}.

(** A table without the key. *)
Definition lacks (entry : Val) (key : string) : Prop :=
  exists d, entry = VDict d /\ assoc key d = None.


(** [tool.poetry.<field>] of a decoded manifest, when the manifest has it. *)
Definition tool_poetry (manifest : Val) (field : string) : option Val :=
  match manifest with
  | VDict d =>
      match assoc "tool" d with
      | Some (VDict tool) =>
          match assoc "poetry" tool with
          | Some (VDict poetry) => assoc field poetry
          | _ => None
          end
      | _ => None
      end
  | _ => None
  end.

(** The same package as an entry [old] of a lock document of generation 1,
    whose files are the row of its name in [files_table], and as an entry
    [new] of a document of generation 2, which carries the files itself. *)
Definition same_package (files_table : list (string * Val)) (old new : Val) : Prop :=
  exists n files,
    getitem old (VStr "name") = inr (VStr n)
    /\ getitem new (VStr "name") = inr (VStr n)
    /\ getitem old (VStr "version") = getitem new (VStr "version")
    /\ get old "category" = get new "category"
    /\ assoc n files_table = Some files
    /\ getitem new (VStr "files") = inr files.

(** A component with its reference key taken away. *)
Definition without_bom_ref (c : Component) : Component :=
  {| name := name c; version := version c; bom_ref := None; purl := purl c;
     properties := properties c; external_references := external_references c |}.

(** The group annotation of a package entry: one pair when the entry has a
    [category] that is true, none otherwise. *)
Definition group_annotation (package : Val) : list Property :=
  match get package "category" with
  | inr (Some category) =>
      if truthy category
      then [{| property_name := PackageGroup; property_value := category |}]
      else []
  | _ => []
  end.

(** A descriptor the loop gets past: its reference is built, or the
    exception is one the loop suppresses. *)
Definition passes (c : Component) (d : Val) : Prop :=
  match distribution_reference c d with
  | inr _ => True
  | inl e => is_CycloneDxModelException e = true
  end.

End Vocabulary.

(* ------------------------------------------------------------------ *)
(** ** The statements compute the denotation *)

Section Refinement.
Context {lib : Collaborators}.
Variable Sink : Type.
Variable debug_message : DebugMessageCallback Sink.

Lemma computes_ret A (a : A) : computes (Sink := Sink) (ret a) (ok a).
Proof. intros h; split; reflexivity. Qed.

Lemma computes_eval A (r : result A) : computes (Sink := Sink) (eval r) r.
Proof. intros h; split; reflexivity. Qed.

Lemma computes_debug fmt args : computes (debug debug_message fmt args) (ok tt).
Proof. intros h; split; reflexivity. Qed.

Lemma computes_bind A B (m : M Sink A) (k : A -> M Sink B) r (f : A -> result B) :
  computes m r ->
  (forall a, r = inr a -> computes (k a) (f a)) ->
  computes (bindM m k) (bind r f).
Proof.
  intros Hm Hk h. unfold bindM.
  destruct (Hm h) as [Hr Hs]. destruct (m h) as [[e | a] h']; simpl in *; subst r.
  - split; [reflexivity | assumption].
  - destruct (Hk a eq_refl h') as [Hr' Hs']. simpl. rewrite Hr', Hs'. split; [reflexivity | assumption].
Qed.

Lemma computes_try A (body : M Sink A) class handler r (f : exn -> result A) :
  computes body r ->
  (forall e, r = inl e -> class e = true -> computes (handler e) (f e)) ->
  computes (try_except body class handler)
    (match r with
     | inl e => if class e then f e else raise e
     | inr a => ok a
     end).
Proof.
  intros Hb Hh h. unfold try_except.
  destruct (Hb h) as [Hr Hs]. destruct (body h) as [[e | a] h']; simpl in *; subst r.
  - destruct (class e) eqn:Hc.
    + destruct (Hh e eq_refl Hc h') as [Hr' Hs']. rewrite Hr', Hs'. split; [reflexivity | assumption].
    + split; [reflexivity | assumption].
  - split; [reflexivity | assumption].
Qed.

Lemma for_each_app A B (xs ys : list A) (body : B -> A -> M Sink B) acc :
  forall h,
    for_each (xs ++ ys) body acc h
    = bindM (for_each xs body acc) (for_each ys body) h.
Proof.
  revert acc. induction xs as [| x xs IH]; intros acc h; simpl.
  - reflexivity.
  - unfold bindM. destruct (body acc x h) as [[e | b] h']; [reflexivity |].
    rewrite IH. reflexivity.
Qed.

(** One descriptor. *)
Lemma process_file_metadata_computes component file_metadata :
  computes (process_file_metadata debug_message component file_metadata)
    (match distribution_reference component file_metadata with
     | inr reference => ok (external_references_add component reference)
     | inl error =>
         if is_CycloneDxModelException error then ok component else raise error
     end).
Proof.
  unfold process_file_metadata.
  apply computes_bind with (r := ok tt) (f := fun _ => _);
    [apply computes_debug | intros _ _].
  set (r := distribution_reference component file_metadata).
  replace (match r with
           | inl error => if is_CycloneDxModelException error then ok component else raise error
           | inr reference => ok (external_references_add component reference)
           end)
    with (match bind r (fun reference => ok (external_references_add component reference)) with
          | inl e => if is_CycloneDxModelException e then ok component else raise e
          | inr a => ok a
          end)
    by (destruct r; reflexivity).
  apply computes_try with (f := fun _ => ok component).
  - apply computes_bind; [apply computes_eval | intros; apply computes_ret].
  - intros e _ _.
    apply computes_bind with (r := ok tt) (f := fun _ => ok component);
      [apply computes_debug | intros; apply computes_ret].
Qed.

(** An exception of another class leaves the loop body. *)
Lemma process_file_metadata_propagates component file_metadata error h :
  distribution_reference component file_metadata = inl error ->
  is_CycloneDxModelException error = false ->
  fst (process_file_metadata debug_message component file_metadata h) = inl error.
Proof.
  intros Hreference Hclass.
  rewrite (proj1 (process_file_metadata_computes component file_metadata h)).
  rewrite Hreference, Hclass. reflexivity.
Qed.

(** The loop over the descriptors. *)
Lemma files_loop_computes descriptors :
  forall component,
    computes (for_each descriptors (process_file_metadata debug_message) component)
      (add_references component descriptors).
Proof.
  induction descriptors as [| d ds IH]; intros component; simpl.
  - apply computes_ret.
  - pose proof (process_file_metadata_computes component d) as Hd.
    destruct (distribution_reference component d) as [e | r];
      [destruct (is_CycloneDxModelException e) |];
      (eapply computes_bind with (f := fun c => add_references c ds) in Hd;
       [exact Hd | simpl; intros a Ha; try discriminate; injection Ha as <-; apply IH]).
Qed.

(** The component of a package entry. *)
Lemma package_entry_component_computes use_purl_bom_ref lock_version metadata package :
  computes
    (package_entry_component debug_message use_purl_bom_ref lock_version metadata package)
    (component_of_package use_purl_bom_ref lock_version metadata package).
Proof.
  unfold package_entry_component, component_of_package.
  apply computes_bind with (r := ok tt) (f := fun _ => _);
    [apply computes_debug | intros _ _].
  apply computes_bind; [apply computes_eval | intros component _].
  apply computes_bind with (r := ok tt) (f := fun _ => _);
    [apply computes_debug | intros _ _].
  apply computes_bind; [apply computes_eval | intros files _].
  apply computes_bind with (r := ok tt) (f := fun _ => _);
    [apply computes_debug | intros _ _].
  apply computes_bind; [apply computes_eval | intros descriptors _].
  apply files_loop_computes.
Qed.

(** One package entry: its component is appended, or its exception raised
    with [self] as it was. *)
Lemma process_package_run use_purl_bom_ref lock_version metadata package h :
  let run := process_package debug_message use_purl_bom_ref lock_version metadata tt package h in
  match component_of_package use_purl_bom_ref lock_version metadata package with
  | inr c =>
      fst run = ok tt
      /\ self (snd run) = {| _components := _components (self h) ++ [c];
                              _metadata := _metadata (self h) |}
  | inl e => fst run = raise e /\ self (snd run) = self h
  end.
Proof.
  unfold process_package, bindM.
  destruct (package_entry_component_computes use_purl_bom_ref lock_version metadata package h)
    as [Hr Hs].
  destruct (package_entry_component _ _ _ _ _ h) as [[e | c] h']; simpl in *;
    rewrite <- Hr; simpl.
  - split; [reflexivity | assumption].
  - rewrite Hs. split; reflexivity.
Qed.

(** The loop over the package entries: the components are appended in the
    order of the entries; the first exception ends it. *)
Lemma packages_loop_run use_purl_bom_ref lock_version metadata packages :
  forall h,
    let run :=
      for_each packages
        (process_package debug_message use_purl_bom_ref lock_version metadata) tt h in
    match mapM (component_of_package use_purl_bom_ref lock_version metadata) packages with
    | inr cs =>
        fst run = ok tt
        /\ self (snd run) = {| _components := _components (self h) ++ cs;
                                _metadata := _metadata (self h) |}
    | inl e => fst run = raise e
    end.
Proof.
  induction packages as [| p ps IH]; intros h; simpl.
  - rewrite app_nil_r. split; [reflexivity | destruct (self h); reflexivity].
  - pose proof (process_package_run use_purl_bom_ref lock_version metadata p h) as Hp.
    unfold bindM. simpl in Hp.
    destruct (component_of_package use_purl_bom_ref lock_version metadata p) as [e | c];
      destruct Hp as [Hr Hs];
      destruct (process_package _ _ _ _ tt p h) as [[e' | []] h']; simpl in *;
      try discriminate.
    + assumption.
    + specialize (IH h').
      destruct (mapM _ ps) as [e | cs]; simpl.
      * assumption.
      * destruct IH as [IHr IHs]. split; [assumption |].
        rewrite IHs, Hs. simpl. rewrite <- app_assoc. reflexivity.
Qed.

(** The root metadata. *)
Lemma root_metadata_run pyproject_toml_contents h :
  let run := @root_metadata _ Sink pyproject_toml_contents h in
  match metadata_of_manifest pyproject_toml_contents with
  | inr None => fst run = ok tt /\ self (snd run) = self h
  | inr (Some m) =>
      fst run = ok tt
      /\ self (snd run) = {| _components := _components (self h); _metadata := Some m |}
  | inl e => fst run = raise e
  end.
Proof.
  unfold root_metadata, metadata_of_manifest.
  destruct (String.eqb pyproject_toml_contents ""); [split; reflexivity |].
  unfold bindM, eval. simpl.
  destruct (load_toml pyproject_toml_contents) as [e | poetry_toml]; [reflexivity |]. simpl.
  destruct (get_default poetry_toml "tool" (VStr "")) as [e | tool]; [reflexivity |]. simpl.
  destruct (get_default tool "poetry" (VStr "")) as [e | poetry]; [reflexivity |]. simpl.
  destruct (getitem poetry (VStr "name")) as [e | name]; [reflexivity |]. simpl.
  destruct (getitem poetry (VStr "version")) as [e | version]; [reflexivity |]. simpl.
  split; reflexivity.
Qed.

(** What the caller of [PoetryParser] gets does not depend on the callback
    nor on the sink: it is the [conversion] of the two texts. *)
Lemma PoetryParser_conversion poetry_lock_contents use_purl_bom_ref pyproject_toml_contents s :
  fst (PoetryParser debug_message poetry_lock_contents use_purl_bom_ref
         pyproject_toml_contents s)
  = conversion poetry_lock_contents use_purl_bom_ref pyproject_toml_contents.
Proof.
  unfold PoetryParser, PoetryParser_init, conversion, package_entries, bindM, eval, debug.
  simpl.
  destruct (load_toml poetry_lock_contents) as [e | poetry_lock]; [reflexivity |]. simpl.
  destruct (getitem poetry_lock (VStr "metadata")) as [e | metadata]; [reflexivity |]. simpl.
  destruct (bind (getitem poetry_lock (VStr "package")) (fun package => iter package))
    as [e | packages]; [reflexivity |]. simpl.
  match goal with
  | |- context [for_each packages ?body tt ?h] =>
      generalize (packages_loop_run use_purl_bom_ref (poetry_lock_version metadata)
                    metadata packages h);
      cbv zeta;
      destruct (for_each packages body tt h) as [[e | []] h1]
  end;
    destruct (mapM _ packages) as [e' | cs]; simpl.
  - unfold raise. intros He. congruence.
  - unfold ok. intros [He _]. discriminate.
  - unfold raise. intros He. discriminate.
  - intros [_ Hs].
    generalize (root_metadata_run pyproject_toml_contents h1). cbv zeta.
    destruct (@root_metadata _ Sink pyproject_toml_contents h1) as [[e | []] h2];
      destruct (metadata_of_manifest pyproject_toml_contents) as [e' | [m |]];
      simpl; unfold raise, ok.
    + intros He. congruence.
    + intros [He _]. discriminate.
    + intros [He _]. discriminate.
    + intros He. discriminate.
    + intros [_ Hs']. rewrite Hs', Hs. reflexivity.
    + intros [_ Hs']. rewrite Hs', Hs. reflexivity.
Qed.

End Refinement.

(* ------------------------------------------------------------------ *)
(** ** Lemmas on the denotation *)

Section Lists.
Variables A B : Type.
Variable f : A -> result B.

Lemma mapM_Forall2 xs :
  forall ys, mapM f xs = inr ys -> Forall2 (fun x y => f x = inr y) xs ys.
Proof.
  induction xs as [| x xs IH]; simpl; intros ys H.
  - injection H as <-. constructor.
  - destruct (f x) as [e | y] eqn:Hx; simpl in H; [discriminate |].
    destruct (mapM f xs) as [e | ys']; simpl in H; [discriminate |].
    injection H as <-. constructor; [assumption | apply IH; reflexivity].
Qed.

Lemma mapM_raises x e xs :
  In x xs -> f x = inl e -> exists e', mapM f xs = inl e'.
Proof.
  intros Hin Hx. induction xs as [| y ys IH]; simpl in *; [contradiction |].
  destruct Hin as [-> | Hin].
  - rewrite Hx. exists e. reflexivity.
  - destruct (f y); simpl; [eexists; reflexivity |].
    destruct (IH Hin) as [e' ->]. exists e'. reflexivity.
Qed.

Lemma mapM_Forall2_eq (g : A -> result B) xs ys :
  Forall2 (fun x y => f x = g y) xs ys -> mapM f xs = mapM g ys.
Proof.
  induction 1 as [| x y xs ys Hxy _ IH]; simpl; [reflexivity |].
  rewrite Hxy, IH. reflexivity.
Qed.

End Lists.

Section Identity.
Context {lib : Collaborators}.

(** Adding references changes neither the name nor the version. *)
Lemma add_references_identity descriptors :
  forall c c',
    add_references c descriptors = inr c' ->
    name c' = name c /\ version c' = version c.
Proof.
  induction descriptors as [| d ds IH]; simpl; intros c c' H.
  - injection H as <-. split; reflexivity.
  - destruct (distribution_reference c d) as [e | r].
    + destruct (is_CycloneDxModelException e); [apply IH; assumption | discriminate].
    + apply IH in H. simpl in H. assumption.
Qed.

(** A component carries the name and version of its package entry. *)
Lemma package_component_identity use_purl_bom_ref package c :
  package_component use_purl_bom_ref package = inr c ->
  getitem package (VStr "name") = inr (name c)
  /\ getitem package (VStr "version") = inr (version c).
Proof.
  unfold package_component.
  destruct (getitem package (VStr "name")) as [e | n]; [discriminate |].
  destruct (getitem package (VStr "version")) as [e | v]; [discriminate |]. simpl.
  destruct (new_PackageURL "pypi" n v) as [e | p]; [discriminate |]. simpl.
  destruct (get package "category") as [e | [category |]]; [discriminate | |]; simpl.
  - unfold properties_add. simpl.
    destruct (truthy category); [destruct (hashable category); [| discriminate] |];
      intros H; injection H as <-; split; reflexivity.
  - intros H; injection H as <-; split; reflexivity.
Qed.

Lemma component_of_package_identity use_purl_bom_ref lock_version metadata package c :
  component_of_package use_purl_bom_ref lock_version metadata package = inr c ->
  getitem package (VStr "name") = inr (name c)
  /\ getitem package (VStr "version") = inr (version c).
Proof.
  unfold component_of_package.
  destruct (package_component use_purl_bom_ref package) as [e | c0] eqn:Hc0;
    [discriminate |]. simpl.
  destruct (package_files lock_version metadata package) as [e | files];
    [discriminate |]. simpl.
  destruct (iter files) as [e | descriptors]; [discriminate |]. simpl.
  intros H. apply add_references_identity in H as [Hn Hv].
  apply package_component_identity in Hc0 as [Hn0 Hv0].
  rewrite Hn, Hv. split; assumption.
Qed.

(** The parts a successful conversion went through. *)
Lemma conversion_inr poetry_lock_contents use_purl_bom_ref pyproject_toml_contents parser :
  conversion poetry_lock_contents use_purl_bom_ref pyproject_toml_contents = inr parser ->
  exists poetry_lock metadata packages,
    load_toml poetry_lock_contents = inr poetry_lock
    /\ getitem poetry_lock (VStr "metadata") = inr metadata
    /\ package_entries poetry_lock = inr packages
    /\ mapM (component_of_package use_purl_bom_ref (poetry_lock_version metadata) metadata)
         packages = inr (_components parser)
    /\ metadata_of_manifest pyproject_toml_contents = inr (_metadata parser).
Proof.
  unfold conversion.
  destruct (load_toml poetry_lock_contents) as [e | poetry_lock] eqn:Hload;
    [discriminate |]. simpl.
  destruct (getitem poetry_lock (VStr "metadata")) as [e | metadata] eqn:Hmeta;
    [discriminate |]. simpl.
  destruct (package_entries poetry_lock) as [e | packages] eqn:Hentries;
    [discriminate |]. simpl.
  destruct (mapM _ packages) as [e | cs] eqn:Hcs; [discriminate |]. simpl.
  destruct (metadata_of_manifest pyproject_toml_contents) as [e | m] eqn:Hm;
    [discriminate |]. simpl.
  intros H. injection H as <-. exists poetry_lock, metadata, packages. simpl.
  repeat split; assumption || reflexivity.
Qed.

(** A package entry whose component cannot be built fails the conversion. *)
Lemma conversion_raises poetry_lock_contents use_purl_bom_ref pyproject_toml_contents
    poetry_lock metadata packages package e :
  load_toml poetry_lock_contents = inr poetry_lock ->
  getitem poetry_lock (VStr "metadata") = inr metadata ->
  package_entries poetry_lock = inr packages ->
  In package packages ->
  component_of_package use_purl_bom_ref (poetry_lock_version metadata) metadata package
    = inl e ->
  exists e',
    conversion poetry_lock_contents use_purl_bom_ref pyproject_toml_contents = inl e'.
Proof.
  intros Hload Hmeta Hentries Hin Hfail. unfold conversion.
  rewrite Hload. simpl. rewrite Hmeta. simpl. rewrite Hentries. simpl.
  destruct (mapM_raises _ _ _ Hin Hfail) as [e' ->]. exists e'. reflexivity.
Qed.

End Identity.

Section Failures.
Context {lib : Collaborators}.

(** Without [name] or [version] no component is built. *)
Lemma package_component_raises use_purl_bom_ref package :
  lacks package "name" \/ lacks package "version" ->
  package_component use_purl_bom_ref package = inl (KeyError (VStr "name"))
  \/ package_component use_purl_bom_ref package = inl (KeyError (VStr "version")).
Proof.
  unfold package_component.
  intros [(d & -> & Hd) | (d & -> & Hd)]; simpl.
  - rewrite Hd. left. reflexivity.
  - destruct (assoc "name" d); simpl; [rewrite Hd; right | left]; reflexivity.
Qed.

Lemma component_of_package_raises use_purl_bom_ref lock_version metadata package e :
  package_component use_purl_bom_ref package = inl e ->
  component_of_package use_purl_bom_ref lock_version metadata package = inl e.
Proof. unfold component_of_package. intros ->. reflexivity. Qed.

(** When the files of an entry cannot be found, its component is not built:
    the exception is that of the lookup once name, version and category
    are through. *)
Lemma package_files_raises use_purl_bom_ref lock_version metadata package e :
  package_files lock_version metadata package = inl e ->
  (forall c,
      package_component use_purl_bom_ref package = inr c ->
      component_of_package use_purl_bom_ref lock_version metadata package = inl e)
  /\ exists e',
      component_of_package use_purl_bom_ref lock_version metadata package = inl e'.
Proof.
  intros Hfiles. unfold component_of_package. rewrite Hfiles. split.
  - intros c ->. reflexivity.
  - destruct (package_component use_purl_bom_ref package) as [e' | c];
      [exists e' | exists e]; reflexivity.
Qed.

(** A manifest without [tool.poetry.name] or [tool.poetry.version] gives no
    root metadata. *)
Lemma metadata_of_manifest_raises pyproject_toml_contents manifest :
  String.eqb pyproject_toml_contents "" = false ->
  load_toml pyproject_toml_contents = inr manifest ->
  tool_poetry manifest "name" = None \/ tool_poetry manifest "version" = None ->
  exists e, metadata_of_manifest pyproject_toml_contents = inl e.
Proof.
  intros Hsupplied Hload Habsent. unfold metadata_of_manifest.
  rewrite Hsupplied, Hload. simpl.
  unfold tool_poetry in Habsent.
  destruct manifest as [? | ? | ? | ? | ? | ? | d]; try (eexists; reflexivity). simpl.
  destruct (assoc "tool" d) as [tool |]; simpl.
  - destruct tool as [? | ? | ? | ? | ? | ? | t]; try (eexists; reflexivity). simpl.
    destruct (assoc "poetry" t) as [poetry |]; simpl.
    + destruct poetry as [? | ? | ? | ? | ? | ? | p]; try (eexists; reflexivity). simpl.
      destruct (assoc "name" p) as [n |]; simpl; [| eexists; reflexivity].
      destruct (assoc "version" p) as [v |]; simpl; [| eexists; reflexivity].
      destruct Habsent; discriminate.
    + eexists; reflexivity.
  - eexists; reflexivity.
Qed.

Lemma conversion_raises_manifest poetry_lock_contents use_purl_bom_ref
    pyproject_toml_contents e :
  metadata_of_manifest pyproject_toml_contents = inl e ->
  exists e',
    conversion poetry_lock_contents use_purl_bom_ref pyproject_toml_contents = inl e'.
Proof.
  intros Hm. unfold conversion. rewrite Hm.
  destruct (load_toml poetry_lock_contents) as [e' | poetry_lock];
    [exists e'; reflexivity |]. simpl.
  destruct (getitem poetry_lock (VStr "metadata")) as [e' | metadata];
    [exists e'; reflexivity |]. simpl.
  destruct (package_entries poetry_lock) as [e' | packages];
    [exists e'; reflexivity |]. simpl.
  destruct (mapM _ packages) as [e' | cs]; [exists e' | exists e]; reflexivity.
Qed.

End Failures.

Section Generations.
Context {lib : Collaborators}.

(** The component of a package does not depend on where its files were. *)
Lemma same_package_same_component use_purl_bom_ref old_version old_metadata
    new_version new_metadata files_table old new :
  tuple_ge old_version [2] = false ->
  tuple_ge new_version [2] = true ->
  getitem old_metadata (VStr "files") = inr (VDict files_table) ->
  same_package files_table old new ->
  component_of_package use_purl_bom_ref old_version old_metadata old
  = component_of_package use_purl_bom_ref new_version new_metadata new.
Proof.
  intros Hold Hnew Htable (n & files & Hn & Hn' & Hv & Hc & Hrow & Hfiles).
  unfold component_of_package, package_component, package_files.
  rewrite Hold, Hnew, Htable, Hn, Hn', Hv, Hc, Hfiles. simpl. rewrite Hrow.
  reflexivity.
Qed.

End Generations.

Section Suppression.
Context {lib : Collaborators}.




(** A component starts without references. *)
Lemma package_component_no_references use_purl_bom_ref package c :
  package_component use_purl_bom_ref package = inr c ->
  external_references c = [].
Proof.
  unfold package_component.
  destruct (getitem package (VStr "name")) as [e | n]; [discriminate |].
  destruct (getitem package (VStr "version")) as [e | v]; [discriminate |]. simpl.
  destruct (new_PackageURL "pypi" n v) as [e | p]; [discriminate |]. simpl.
  destruct (get package "category") as [e | [category |]]; [discriminate | |]; simpl.
  - unfold properties_add. simpl.
    destruct (truthy category); [destruct (hashable category); [| discriminate] |];
      intros H; injection H as <-; reflexivity.
  - intros H; injection H as <-; reflexivity.
Qed.

End Suppression.

(* ------------------------------------------------------------------ *)
(** ** Further lemmas: the file parser, components and references *)

Section FileParserRefinement.
Context {lib : Collaborators}.
Variable Sink : Type.
Variable debug_message : DebugMessageCallback Sink.

(** [__init__] on a fresh object, under any class name: the caller's result
    is the [conversion] of the two texts. *)
Lemma PoetryParser_init_conversion class_name poetry_lock_contents use_purl_bom_ref
    pyproject_toml_contents s :
  match PoetryParser_init debug_message class_name poetry_lock_contents
          use_purl_bom_ref pyproject_toml_contents {| self := fresh; sink := s |} with
  | (inr _, h) => ok (self h)
  | (inl e, _) => raise e
  end
  = conversion poetry_lock_contents use_purl_bom_ref pyproject_toml_contents.
Proof.
  unfold PoetryParser_init, conversion, package_entries, bindM, eval, debug.
  simpl.
  destruct (load_toml poetry_lock_contents) as [e | poetry_lock]; [reflexivity |]. simpl.
  destruct (getitem poetry_lock (VStr "metadata")) as [e | metadata]; [reflexivity |]. simpl.
  destruct (bind (getitem poetry_lock (VStr "package")) (fun package => iter package))
    as [e | packages]; [reflexivity |]. simpl.
  match goal with
  | |- context [for_each packages ?body tt ?h] =>
      generalize (packages_loop_run debug_message use_purl_bom_ref
                    (poetry_lock_version metadata) metadata packages h);
      cbv zeta;
      destruct (for_each packages body tt h) as [[e | []] h1]
  end;
    destruct (mapM _ packages) as [e' | cs]; simpl; unfold raise, ok.
  - intros He. congruence.
  - intros [He _]. discriminate.
  - intros He. discriminate.
  - intros [_ Hs].
    generalize (root_metadata_run pyproject_toml_contents h1). cbv zeta.
    destruct (@root_metadata _ Sink pyproject_toml_contents h1) as [[e | []] h2];
      destruct (metadata_of_manifest pyproject_toml_contents) as [e' | [m |]];
      simpl; unfold raise, ok.
    + intros He. congruence.
    + intros [He _]. discriminate.
    + intros [He _]. discriminate.
    + intros He. discriminate.
    + intros [_ Hs']. rewrite Hs', Hs. reflexivity.
    + intros [_ Hs']. rewrite Hs', Hs. reflexivity.
Qed.

End FileParserRefinement.

Section Components.
Context {lib : Collaborators}.

(** A reference is built from the name and version of the component alone. *)
Lemma distribution_reference_identity c c' file_metadata :
  name c = name c' ->
  version c = version c' ->
  distribution_reference c file_metadata = distribution_reference c' file_metadata.
Proof.
  unfold distribution_reference, get_pypi_url. intros -> ->. reflexivity.
Qed.

(** The loop over the descriptors touches the references only. *)
Lemma add_references_keeps descriptors :
  forall c c',
    add_references c descriptors = inr c' ->
    bom_ref c' = bom_ref c /\ purl c' = purl c /\ properties c' = properties c.
Proof.
  induction descriptors as [| d ds IH]; simpl; intros c c' H.
  - injection H as <-. repeat split.
  - destruct (distribution_reference c d) as [e | r].
    + destruct (is_CycloneDxModelException e); [apply IH; assumption | discriminate].
    + apply IH in H. simpl in H. assumption.
Qed.

(** The references after the loop: those before it and those of the
    descriptors from which one can be built. *)
Lemma add_references_In descriptors :
  forall c c',
    add_references c descriptors = inr c' ->
    forall r,
      In r (external_references c')
      <-> In r (external_references c)
          \/ exists d, In d descriptors /\ distribution_reference c d = inr r.
Proof.
  induction descriptors as [| d ds IH]; simpl; intros c c' H r.
  - injection H as <-. split; [auto | intros [Hr | (d & [] & _)]; exact Hr].
  - destruct (distribution_reference c d) as [e | r0] eqn:Hd.
    + destruct (is_CycloneDxModelException e); [| discriminate].
      rewrite (IH _ _ H r). split.
      * intros [Hr | (d' & Hin & Hd')]; [left; exact Hr |].
        right. exists d'. split; [right; exact Hin | exact Hd'].
      * intros [Hr | (d' & [<- | Hin] & Hd')]; [left; exact Hr | congruence |].
        right. exists d'. split; assumption.
    + rewrite (IH _ _ H r). simpl. rewrite set_add_iff. split.
      * intros [[-> | Hr] | (d' & Hin & Hd')].
        -- right. exists d. split; [left; reflexivity | exact Hd].
        -- left. exact Hr.
        -- right. exists d'. split; [right; exact Hin |].
           rewrite <- Hd'. apply distribution_reference_identity; reflexivity.
      * intros [Hr | (d' & [<- | Hin] & Hd')].
        -- left. right. exact Hr.
        -- left. left. congruence.
        -- right. exists d'. split; [exact Hin |].
           rewrite <- Hd'. apply distribution_reference_identity; reflexivity.
Qed.

(** No reference comes twice, and there are no more than descriptors. *)
Lemma add_references_NoDup descriptors :
  forall c c',
    add_references c descriptors = inr c' ->
    NoDup (external_references c) ->
    NoDup (external_references c').
Proof.
  induction descriptors as [| d ds IH]; simpl; intros c c' H Hc.
  - injection H as <-. exact Hc.
  - destruct (distribution_reference c d) as [e | r].
    + destruct (is_CycloneDxModelException e); [eapply IH; eassumption | discriminate].
    + eapply IH; [eassumption |]. simpl. apply set_add_nodup. exact Hc.
Qed.

Lemma set_add_length A (dec : forall a b : A, {a = b} + {a <> b}) a l :
  (length (set_add dec a l) <= S (length l))%nat.
Proof.
  induction l as [| b l IH]; simpl; [lia |].
  destruct (dec a b); simpl; lia.
Qed.

Lemma add_references_length descriptors :
  forall c c',
    add_references c descriptors = inr c' ->
    (length (external_references c')
     <= length (external_references c) + length descriptors)%nat.
Proof.
  induction descriptors as [| d ds IH]; simpl; intros c c' H.
  - injection H as <-. lia.
  - destruct (distribution_reference c d) as [e | r].
    + destruct (is_CycloneDxModelException e); [| discriminate].
      apply IH in H. lia.
    + apply IH in H. simpl in H.
      pose proof (set_add_length ExternalReference_eq_dec r (external_references c)).
      lia.
Qed.

(** A descriptor that raises an exception of another class ends the loop. *)
Lemma add_references_raises descriptors :
  forall c d e,
    In d descriptors ->
    distribution_reference c d = inl e ->
    is_CycloneDxModelException e = false ->
    exists e', add_references c descriptors = inl e'.
Proof.
  induction descriptors as [| d0 ds IH]; simpl; intros c d e Hin Hd Hclass;
    [contradiction |].
  destruct Hin as [-> | Hin].
  - rewrite Hd, Hclass. exists e. reflexivity.
  - destruct (distribution_reference c d0) as [e0 | r0].
    + destruct (is_CycloneDxModelException e0); [| exists e0; reflexivity].
      eapply IH; eassumption.
    + eapply IH; [eassumption | | eassumption].
      rewrite <- Hd. apply distribution_reference_identity; reflexivity.
Qed.

(** When no reference can be built for the component, every descriptor is
    left out. *)
Lemma add_references_none descriptors :
  forall c,
    (forall d, In d descriptors ->
       exists e, distribution_reference c d = inl e
                 /\ is_CycloneDxModelException e = true) ->
    add_references c descriptors = inr c.
Proof.
  induction descriptors as [| d ds IH]; simpl; intros c Hall; [reflexivity |].
  destruct (Hall d (or_introl eq_refl)) as (e & -> & ->).
  apply IH. intros d' Hin. apply Hall. right. exact Hin.
Qed.

(** The parts the component of a package entry went through. *)
Lemma component_of_package_inr use_purl_bom_ref lock_version metadata package c :
  component_of_package use_purl_bom_ref lock_version metadata package = inr c ->
  exists c0 files descriptors,
    package_component use_purl_bom_ref package = inr c0
    /\ package_files lock_version metadata package = inr files
    /\ iter files = inr descriptors
    /\ add_references c0 descriptors = inr c.
Proof.
  unfold component_of_package.
  destruct (package_component use_purl_bom_ref package) as [e | c0] eqn:Hc0;
    [discriminate |]. simpl.
  destruct (package_files lock_version metadata package) as [e | files] eqn:Hfiles;
    [discriminate |]. simpl.
  destruct (iter files) as [e | descriptors] eqn:Hiter; [discriminate |]. simpl.
  intros H. exists c0, files, descriptors. repeat split; assumption.
Qed.

(** The component before its references. *)
Lemma package_component_inr use_purl_bom_ref package c0 :
  package_component use_purl_bom_ref package = inr c0 ->
  exists n v p,
    getitem package (VStr "name") = inr n
    /\ getitem package (VStr "version") = inr v
    /\ new_PackageURL "pypi" n v = inr p
    /\ c0 = {| name := n; version := v;
               bom_ref := if use_purl_bom_ref then Some (to_string p) else None;
               purl := Some p;
               properties := group_annotation package;
               external_references := [] |}.
Proof.
  unfold package_component, group_annotation.
  destruct (getitem package (VStr "name")) as [e | n]; [discriminate |].
  destruct (getitem package (VStr "version")) as [e | v]; [discriminate |]. simpl.
  destruct (new_PackageURL "pypi" n v) as [e | p] eqn:Hp; [discriminate |]. simpl.
  destruct (get package "category") as [e | [category |]]; [discriminate | |]; simpl.
  - unfold properties_add. simpl.
    destruct (truthy category); [destruct (hashable category); [| discriminate] |];
      intros H; injection H as <-;
      exists n, v, p; repeat split; assumption || reflexivity.
  - intros H; injection H as <-. exists n, v, p. repeat split; assumption || reflexivity.
Qed.

End Components.

Section Values.
Context {lib : Collaborators}.
Variable Sink : Type.
Variable debug_message : DebugMessageCallback Sink.

(** The value of the loop body over the package entries. *)
Lemma package_entry_component_value use_purl_bom_ref lock_version metadata package h :
  fst (package_entry_component debug_message use_purl_bom_ref lock_version metadata
         package h)
  = component_of_package use_purl_bom_ref lock_version metadata package.
Proof. apply package_entry_component_computes. Qed.

End Values.

Section BomRef.
Context {lib : Collaborators}.

Lemma without_bom_ref_references c descriptors :
  forall c',
    add_references c descriptors = inr c' ->
    add_references (without_bom_ref c) descriptors = inr (without_bom_ref c').
Proof.
  revert c. induction descriptors as [| d ds IH]; simpl; intros c c' H.
  - injection H as <-. reflexivity.
  - rewrite (distribution_reference_identity (without_bom_ref c) c d eq_refl eq_refl).
    destruct (distribution_reference c d) as [e | r].
    + destruct (is_CycloneDxModelException e); [apply IH; assumption | discriminate].
    + apply IH in H. exact H.
Qed.

Lemma without_bom_ref_raises c descriptors :
  forall e,
    add_references c descriptors = inl e ->
    add_references (without_bom_ref c) descriptors = inl e.
Proof.
  revert c. induction descriptors as [| d ds IH]; simpl; intros c e H.
  - discriminate.
  - rewrite (distribution_reference_identity (without_bom_ref c) c d eq_refl eq_refl).
    destruct (distribution_reference c d) as [e0 | r].
    + destruct (is_CycloneDxModelException e0); [apply IH; assumption | exact H].
    + apply IH in H. exact H.
Qed.

(** Without [use_purl_bom_ref] the component is the same, less its key. *)
Lemma component_of_package_bom_ref lock_version metadata package :
  component_of_package false lock_version metadata package
  = match component_of_package true lock_version metadata package with
    | inr c => inr (without_bom_ref c)
    | inl e => inl e
    end.
Proof.
  unfold component_of_package, package_component.
  destruct (getitem package (VStr "name")) as [e | n]; [reflexivity |].
  destruct (getitem package (VStr "version")) as [e | v]; [reflexivity |]. simpl.
  destruct (new_PackageURL "pypi" n v) as [e | p]; [reflexivity |]. simpl.
  destruct (get package "category") as [e | category]; [reflexivity |]. simpl.
  match goal with
  | |- bind ?c0 _ = match bind ?c1 _ with _ => _ end =>
      assert (Hc : c0 = match c1 with
                        | inr c => inr (without_bom_ref c)
                        | inl e => inl e
                        end)
        by (destruct category as [category |];
            [unfold properties_add; simpl;
             destruct (truthy category); [destruct (hashable category) |] |];
            reflexivity);
      rewrite Hc; destruct c1 as [e | c]; [reflexivity |]
  end. simpl.
  destruct (package_files lock_version metadata package) as [e | files];
    [reflexivity |]. simpl.
  destruct (iter files) as [e | descriptors]; [reflexivity |]. simpl.
  destruct (add_references c descriptors) as [e | c'] eqn:Hrefs.
  - apply without_bom_ref_raises. exact Hrefs.
  - apply without_bom_ref_references. exact Hrefs.
Qed.

End BomRef.

Section ReferenceSources.
Context {lib : Collaborators}.
Variable Sink : Type.
Variable debug_message : DebugMessageCallback Sink.

(** Where the references of a built component come from. *)
Lemma references_shape_source use_purl_bom_ref lock_version metadata package h c :
  fst (package_entry_component debug_message use_purl_bom_ref lock_version metadata
         package h) = inr c ->
  exists descriptors,
    bind (package_files lock_version metadata package) iter = inr descriptors
    /\ forall r,
        In r (external_references c) ->
        exists d, In d descriptors /\ distribution_reference c d = inr r.
Proof.
  intros H. rewrite package_entry_component_value in H.
  apply component_of_package_inr in H
    as (c0 & files & descriptors & Hc0 & Hfiles & Hiter & Hrefs).
  pose proof (package_component_no_references _ _ Hc0) as Hnone.
  destruct (add_references_identity _ _ Hrefs) as [Hname Hversion].
  exists descriptors. rewrite Hfiles. simpl. split; [exact Hiter |].
  intros r Hr. rewrite (add_references_In _ _ Hrefs r), Hnone in Hr.
  destruct Hr as [[] | (d & Hin & Hd)]. exists d. split; [exact Hin |].
  rewrite <- Hd. apply distribution_reference_identity; assumption.
Qed.

End ReferenceSources.

Section Generation.
Context {lib : Collaborators}.

Lemma split_not_nil sep s : split sep s <> [].
Proof.
  destruct s as [| c s]; simpl; [discriminate |].
  destruct (Ascii.eqb c sep); [discriminate |].
  destruct (split sep s); discriminate.
Qed.

Lemma mapM_not_nil A B (f : A -> result B) xs ys :
  xs <> [] -> mapM f xs = inr ys -> ys <> [].
Proof.
  destruct xs as [| x xs]; [contradiction |]. simpl. intros _.
  destruct (f x) as [e | y]; [discriminate |]. simpl.
  destruct (mapM f xs) as [e | ys']; [discriminate |]. simpl.
  intros H. injection H as <-. discriminate.
Qed.

(** The generation is never the empty tuple. *)
Lemma poetry_lock_version_not_nil metadata : poetry_lock_version metadata <> [].
Proof.
  unfold poetry_lock_version.
  destruct (getitem metadata (VStr "lock-version")) as [e | lock_version];
    [discriminate |]. simpl.
  destruct (mapM Py.int _) as [e | t] eqn:Ht; [discriminate |].
  eapply mapM_not_nil; [| exact Ht]. apply split_not_nil.
Qed.

End Generation.

Section Decimal.

Lemma rstrip_plain s : all_chars plain s = true -> rstrip s = s.
Proof.
  induction s as [| c s IH]; simpl; [reflexivity |].
  intros H. apply andb_true_iff in H as [Hc Hs]. rewrite (IH Hs).
  destruct s; [| reflexivity].
  unfold plain in Hc. destruct (is_space c); [discriminate | reflexivity].
Qed.

Lemma lstrip_plain s : all_chars plain s = true -> lstrip s = s.
Proof.
  destruct s as [| c s]; simpl; [reflexivity |].
  intros H. apply andb_true_iff in H as [Hc _].
  unfold plain in Hc. destruct (is_space c); [discriminate | reflexivity].
Qed.

Lemma split_plain s : all_chars plain s = true -> split "." s = [s].
Proof.
  induction s as [| c s IH]; simpl; [reflexivity |].
  intros H. apply andb_true_iff in H as [Hc Hs]. rewrite (IH Hs).
  unfold plain in Hc. destruct (Ascii.eqb c ".");
    [rewrite andb_false_r in Hc; discriminate | reflexivity].
Qed.

Lemma plain_uint d : all_chars plain (NilEmpty.string_of_uint d) = true.
Proof. induction d; simpl; try assumption; reflexivity. Qed.

Lemma digits_uint d :
  forall acc b,
    d <> Decimal.Nil \/ b = true ->
    digits acc b (NilEmpty.string_of_uint d) = Some (uint_value acc d).
Proof.
  induction d; intros acc b H; simpl; try (apply IHd; right; reflexivity).
  destruct H as [H | ->]; [contradiction | reflexivity].
Qed.

Lemma uint_value_acc d :
  forall a, uint_value (Zpos a) d = Zpos (Pos.of_uint_acc d a).
Proof.
  induction d; intros a; cbn [uint_value Pos.of_uint_acc]; [reflexivity | ..];
    rewrite <- IHd; f_equal; lia.
Qed.

Lemma uint_value_of_uint d : uint_value 0 d = Z.of_N (Pos.of_uint d).
Proof.
  induction d; simpl; try reflexivity; try assumption; apply uint_value_acc.
Qed.

Lemma to_uint_not_nil p : Pos.to_uint p <> Decimal.Nil.
Proof.
  intros H. pose proof (DecimalPos.Unsigned.of_to p) as Hp.
  rewrite H in Hp. discriminate.
Qed.

Lemma string_of_to_uint p :
  NilZero.string_of_uint (Pos.to_uint p) = NilEmpty.string_of_uint (Pos.to_uint p).
Proof.
  pose proof (to_uint_not_nil p) as Hnil. unfold NilZero.string_of_uint.
  destruct (Pos.to_uint p); [contradiction | ..]; reflexivity.
Qed.

(** The text of an integer has neither whitespace nor a dot. *)
Lemma plain_str_int z : all_chars plain (NilZero.string_of_int (Z.to_int z)) = true.
Proof.
  destruct z as [| p | p]; simpl; [reflexivity | |];
    rewrite string_of_to_uint; apply plain_uint.
Qed.

(** [int(str(z))] is [z]. *)
Lemma int_str z : Py.int (NilZero.string_of_int (Z.to_int z)) = inr z.
Proof.
  unfold Py.int.
  rewrite lstrip_plain, rstrip_plain by apply plain_str_int.
  destruct z as [| p | p]; simpl; [reflexivity | |]; rewrite string_of_to_uint.
  - assert (Hv : uint_value 0 (Pos.to_uint p) = Zpos p)
      by (rewrite uint_value_of_uint, DecimalPos.Unsigned.of_to; reflexivity).
    rewrite <- Hv. pose proof (to_uint_not_nil p) as Hnil.
    destruct (Pos.to_uint p); [contradiction | ..]; simpl;
      rewrite digits_uint by (right; reflexivity); reflexivity.
  - rewrite digits_uint by (left; apply to_uint_not_nil).
    rewrite uint_value_of_uint, DecimalPos.Unsigned.of_to. reflexivity.
Qed.

End Decimal.

Section Manifest.
Context {lib : Collaborators}.

(** The parts a manifest that gives root metadata went through. *)
Lemma metadata_of_manifest_inr pyproject_toml_contents m :
  String.eqb pyproject_toml_contents "" = false ->
  metadata_of_manifest pyproject_toml_contents = inr m ->
  exists manifest n v,
    load_toml pyproject_toml_contents = inr manifest
    /\ tool_poetry manifest "name" = Some n
    /\ tool_poetry manifest "version" = Some v
    /\ m = Some {| component := new_Component n v None None |}.
Proof.
  intros Hsupplied. unfold metadata_of_manifest. rewrite Hsupplied.
  destruct (load_toml pyproject_toml_contents) as [e | manifest] eqn:Hload;
    [discriminate |]. simpl.
  destruct manifest as [? | ? | ? | ? | ? | ? | d]; try discriminate. simpl.
  destruct (assoc "tool" d) as [tool |] eqn:Htool; simpl; [| discriminate].
  destruct tool as [? | ? | ? | ? | ? | ? | t]; try discriminate. simpl.
  destruct (assoc "poetry" t) as [poetry |] eqn:Hpoetry; simpl; [| discriminate].
  destruct poetry as [? | ? | ? | ? | ? | ? | p]; try discriminate. simpl.
  destruct (assoc "name" p) as [n |] eqn:Hn; simpl; [| discriminate].
  destruct (assoc "version" p) as [v |] eqn:Hv; simpl; [| discriminate].
  intros H. injection H as <-. exists (VDict d), n, v.
  unfold tool_poetry. rewrite Htool, Hpoetry, Hn, Hv. repeat split.
Qed.

(** With a manifest, the conversion is the one without it and then the
    root metadata. *)
Lemma conversion_manifest poetry_lock_contents use_purl_bom_ref pyproject_toml_contents :
  conversion poetry_lock_contents use_purl_bom_ref pyproject_toml_contents
  = match conversion poetry_lock_contents use_purl_bom_ref "" with
    | inl e => inl e
    | inr parser =>
        match metadata_of_manifest pyproject_toml_contents with
        | inl e => inl e
        | inr m => inr {| _components := _components parser; _metadata := m |}
        end
    end.
Proof.
  unfold conversion.
  destruct (load_toml poetry_lock_contents) as [e | poetry_lock]; [reflexivity |]. simpl.
  destruct (getitem poetry_lock (VStr "metadata")) as [e | metadata]; [reflexivity |].
  simpl.
  destruct (package_entries poetry_lock) as [e | packages]; [reflexivity |]. simpl.
  destruct (mapM _ packages) as [e | cs]; [reflexivity |]. simpl.
  destruct (metadata_of_manifest pyproject_toml_contents) as [e | m]; reflexivity.
Qed.

End Manifest.

Section Order.
Context {lib : Collaborators}.

Lemma passes_identity c c' d :
  name c = name c' -> version c = version c' -> passes c d -> passes c' d.
Proof.
  unfold passes. intros Hn Hv.
  rewrite (distribution_reference_identity c c' d Hn Hv). auto.
Qed.

(** The loop returns exactly when every descriptor passes. *)
Lemma add_references_returns descriptors :
  forall c,
    (exists c', add_references c descriptors = inr c')
    <-> Forall (passes c) descriptors.
Proof.
  induction descriptors as [| d ds IH]; intros c; simpl.
  - split; [constructor | intros _; exists c; reflexivity].
  - destruct (distribution_reference c d) as [e | r] eqn:Hd.
    + destruct (is_CycloneDxModelException e) eqn:Hclass.
      * rewrite IH. split.
        -- intros Hall. constructor; [unfold passes; rewrite Hd; exact Hclass | exact Hall].
        -- intros Hall. inversion Hall. assumption.
      * split; [intros [c' H]; discriminate |].
        intros Hall. inversion Hall as [| ? ? Hp _]. unfold passes in Hp.
        rewrite Hd in Hp. congruence.
    + rewrite IH. split.
      * intros Hall. constructor; [unfold passes; rewrite Hd; exact I |].
        eapply Forall_impl; [| exact Hall].
        intros d'. apply passes_identity; reflexivity.
      * intros Hall. inversion Hall as [| ? ? _ Hrest].
        eapply Forall_impl; [| exact Hrest].
        intros d'. apply passes_identity; reflexivity.
Qed.

End Order.

Section Pointwise.
Context {lib : Collaborators}.
Variable Sink : Type.

Lemma bindM_pointwise A B (m m' : M Sink A) (k k' : A -> M Sink B) :
  (forall h, m h = m' h) ->
  (forall a h, k a h = k' a h) ->
  forall h, bindM m k h = bindM m' k' h.
Proof.
  intros Hm Hk h. unfold bindM. rewrite Hm.
  destruct (m' h) as [[e | a] h']; [reflexivity | apply Hk].
Qed.

Lemma try_except_pointwise A (body : M Sink A) class (handler handler' : exn -> M Sink A) :
  (forall e h, handler e h = handler' e h) ->
  forall h, try_except body class handler h = try_except body class handler' h.
Proof.
  intros Hh h. unfold try_except.
  destruct (body h) as [[e | a] h']; [| reflexivity].
  destruct (class e); [apply Hh | reflexivity].
Qed.

Lemma for_each_pointwise A B (body body' : B -> A -> M Sink B) xs :
  (forall b a h, body b a h = body' b a h) ->
  forall acc h, for_each xs body acc h = for_each xs body' acc h.
Proof.
  intros Hbody. induction xs as [| x xs IH]; intros acc h; simpl; [reflexivity |].
  apply bindM_pointwise; [apply Hbody | exact IH].
Qed.

End Pointwise.

Section ReturningCallback.
Context {lib : Collaborators}.
Variable Sink : Type.
Variable debug_message : Raising.DebugMessageCallback Sink.
Hypothesis returns : forall fmt args s, fst (debug_message fmt args s) = inr tt.

Lemma debug_returning fmt args h :
  Raising.debug debug_message fmt args h = debug (Raising.on_sink debug_message) fmt args h.
Proof.
  unfold Raising.debug, debug, Raising.on_sink.
  pose proof (returns fmt args (sink h)) as Hr.
  destruct (debug_message fmt args (sink h)) as [r s]. simpl in *. rewrite Hr.
  reflexivity.
Qed.

Lemma process_file_metadata_returning component file_metadata h :
  Raising.process_file_metadata debug_message component file_metadata h
  = process_file_metadata (Raising.on_sink debug_message) component file_metadata h.
Proof.
  unfold Raising.process_file_metadata, process_file_metadata.
  apply bindM_pointwise; [apply debug_returning | intros _ h'].
  apply try_except_pointwise. intros e h''.
  apply bindM_pointwise; [apply debug_returning | reflexivity].
Qed.

Lemma package_entry_component_returning use_purl_bom_ref lock_version metadata package h :
  Raising.package_entry_component debug_message use_purl_bom_ref lock_version metadata
    package h
  = package_entry_component (Raising.on_sink debug_message) use_purl_bom_ref lock_version metadata package h.
Proof.
  unfold Raising.package_entry_component, package_entry_component.
  apply bindM_pointwise; [apply debug_returning | intros _ h1].
  apply bindM_pointwise; [reflexivity | intros component h2].
  apply bindM_pointwise; [apply debug_returning | intros _ h3].
  apply bindM_pointwise; [reflexivity | intros files h4].
  apply bindM_pointwise; [apply debug_returning | intros _ h5].
  apply bindM_pointwise; [reflexivity | intros descriptors h6].
  apply for_each_pointwise. intros c d h7. apply process_file_metadata_returning.
Qed.

Lemma PoetryParser_init_returning class_name poetry_lock_contents use_purl_bom_ref
    pyproject_toml_contents h :
  Raising.PoetryParser_init debug_message class_name poetry_lock_contents
    use_purl_bom_ref pyproject_toml_contents h
  = PoetryParser_init (Raising.on_sink debug_message) class_name poetry_lock_contents use_purl_bom_ref
      pyproject_toml_contents h.
Proof.
  unfold Raising.PoetryParser_init, PoetryParser_init.
  apply bindM_pointwise; [apply debug_returning | intros _ h1].
  apply bindM_pointwise; [apply debug_returning | intros _ h2].
  apply bindM_pointwise; [reflexivity | intros poetry_lock h3].
  apply bindM_pointwise; [reflexivity | intros metadata h4].
  apply bindM_pointwise; [apply debug_returning | intros _ h5].
  apply bindM_pointwise; [apply debug_returning | intros _ h6].
  apply bindM_pointwise; [reflexivity | intros packages h7].
  apply bindM_pointwise; [| reflexivity].
  apply for_each_pointwise. intros [] package h8.
  unfold Raising.process_package, process_package.
  apply bindM_pointwise; [apply package_entry_component_returning | reflexivity].
Qed.

(** With a callback that returns, the run is the one of the callback taken
    as a function on its sink. *)
Lemma PoetryParser_returning poetry_lock_contents use_purl_bom_ref
    pyproject_toml_contents s :
  Raising.PoetryParser debug_message poetry_lock_contents use_purl_bom_ref
    pyproject_toml_contents s
  = PoetryParser (Raising.on_sink debug_message) poetry_lock_contents use_purl_bom_ref
      pyproject_toml_contents s.
Proof.
  unfold Raising.PoetryParser, PoetryParser.
  rewrite PoetryParser_init_returning. reflexivity.
Qed.

End ReturningCallback.

Section Following.
Context {lib : Collaborators}.
Variables Sink Sink' : Type.
Variable debug_message : Raising.DebugMessageCallback Sink.
Variable debug_message' : Raising.DebugMessageCallback Sink'.
Hypothesis returns' : forall fmt args s, fst (debug_message' fmt args s) = inr tt.

Local Abbreviation follows := (@Raising.follows lib Sink Sink' _).

Lemma follows_eval A (r : result A) : follows (eval r) (eval r).
Proof. intros h h' Hself a Hr. simpl in *. split; assumption. Qed.

Lemma follows_ret A (a : A) : follows (ret a) (ret a).
Proof. intros h h' Hself b Hr. simpl in *. split; assumption. Qed.

Lemma follows_debug fmt args :
  follows (Raising.debug debug_message fmt args) (Raising.debug debug_message' fmt args).
Proof.
  intros h h' Hself [] _. unfold Raising.debug.
  pose proof (returns' fmt args (sink h')) as Hr.
  destruct (debug_message fmt args (sink h)) as [r s].
  destruct (debug_message' fmt args (sink h')) as [r' s']. simpl in *.
  split; assumption.
Qed.

Lemma follows_bind A B (m : M Sink A) (m' : M Sink' A) (k : A -> M Sink B)
    (k' : A -> M Sink' B) :
  follows m m' ->
  (forall a, follows (k a) (k' a)) ->
  follows (bindM m k) (bindM m' k').
Proof.
  intros Hm Hk h h' Hself b. unfold bindM.
  specialize (Hm h h' Hself).
  destruct (m h) as [[e | a] h1]; simpl; [discriminate |].
  destruct (Hm a eq_refl) as [Hr Hs].
  destruct (m' h') as [[e | a'] h1']; simpl in *; [discriminate |].
  injection Hr as ->. apply Hk. exact Hs.
Qed.

Lemma follows_for_each A B (body : B -> A -> M Sink B) (body' : B -> A -> M Sink' B) xs :
  (forall b a, follows (body b a) (body' b a)) ->
  forall acc, follows (for_each xs body acc) (for_each xs body' acc).
Proof.
  intros Hbody. induction xs as [| x xs IH]; intros acc; simpl.
  - apply follows_ret.
  - apply follows_bind; [apply Hbody | exact IH].
Qed.

(** A handler that follows: the body is the same expression on both sides. *)
Lemma follows_try A (r : result A) class (handler : exn -> M Sink A)
    (handler' : exn -> M Sink' A) :
  (forall e, follows (handler e) (handler' e)) ->
  follows (try_except (eval r) class handler) (try_except (eval r) class handler').
Proof.
  intros Hh h h' Hself a. unfold try_except, eval.
  destruct r as [e | a']; simpl.
  - destruct (class e); [apply Hh; exact Hself | discriminate].
  - intros Ha. split; assumption.
Qed.

Lemma follows_process_file_metadata component file_metadata :
  follows (Raising.process_file_metadata debug_message component file_metadata)
          (Raising.process_file_metadata debug_message' component file_metadata).
Proof.
  unfold Raising.process_file_metadata.
  apply follows_bind; [apply follows_debug | intros _].
  intros h h' Hself a.
  pose proof (@follows_try _
                (bind (distribution_reference component file_metadata)
                   (fun reference => ok (external_references_add component reference)))
                is_CycloneDxModelException
                (fun error =>
                   Raising.debug debug_message "Warning: suppressed {!r}" [AExn error] ;;
                   ret component)
                (fun error =>
                   Raising.debug debug_message' "Warning: suppressed {!r}" [AExn error] ;;
                   ret component)) as Htry.
  assert (Hhandlers : forall e,
             follows (Raising.debug debug_message "Warning: suppressed {!r}" [AExn e] ;;
                      ret component)
                     (Raising.debug debug_message' "Warning: suppressed {!r}" [AExn e] ;;
                      ret component))
    by (intros e; apply follows_bind; [apply follows_debug | intros; apply follows_ret]).
  specialize (Htry Hhandlers h h' Hself a).
  unfold try_except, bindM, eval, ret in *.
  destruct (distribution_reference component file_metadata) as [e | r];
    simpl in *; exact Htry.
Qed.

Lemma follows_package_entry_component use_purl_bom_ref lock_version metadata package :
  follows
    (Raising.package_entry_component debug_message use_purl_bom_ref lock_version
       metadata package)
    (Raising.package_entry_component debug_message' use_purl_bom_ref lock_version
       metadata package).
Proof.
  unfold Raising.package_entry_component.
  apply follows_bind; [apply follows_debug | intros _].
  apply follows_bind; [apply follows_eval | intros component].
  apply follows_bind; [apply follows_debug | intros _].
  apply follows_bind; [apply follows_eval | intros files].
  apply follows_bind; [apply follows_debug | intros _].
  apply follows_bind; [apply follows_eval | intros descriptors].
  apply follows_for_each. intros c d. apply follows_process_file_metadata.
Qed.

Lemma follows_components_append c :
  follows (components_append c) (components_append c).
Proof.
  intros h h' Hself [] _. unfold components_append. simpl. rewrite Hself.
  split; reflexivity.
Qed.

Lemma follows_root_metadata pyproject_toml_contents :
  follows (root_metadata pyproject_toml_contents) (root_metadata pyproject_toml_contents).
Proof.
  intros h h' Hself [].
  generalize (root_metadata_run pyproject_toml_contents h).
  generalize (root_metadata_run pyproject_toml_contents h'). cbv zeta.
  destruct (metadata_of_manifest pyproject_toml_contents) as [e | [m |]].
  - intros _ -> H. discriminate.
  - intros [-> ->] [_ ->] _. rewrite Hself. split; reflexivity.
  - intros [-> ->] [_ ->] _. rewrite Hself. split; reflexivity.
Qed.

Lemma follows_PoetryParser_init class_name poetry_lock_contents use_purl_bom_ref
    pyproject_toml_contents :
  follows
    (Raising.PoetryParser_init debug_message class_name poetry_lock_contents
       use_purl_bom_ref pyproject_toml_contents)
    (Raising.PoetryParser_init debug_message' class_name poetry_lock_contents
       use_purl_bom_ref pyproject_toml_contents).
Proof.
  unfold Raising.PoetryParser_init.
  apply follows_bind; [apply follows_debug | intros _].
  apply follows_bind; [apply follows_debug | intros _].
  apply follows_bind; [apply follows_eval | intros poetry_lock].
  apply follows_bind; [apply follows_eval | intros metadata].
  apply follows_bind; [apply follows_debug | intros _].
  apply follows_bind; [apply follows_debug | intros _].
  apply follows_bind; [apply follows_eval | intros packages].
  apply follows_bind; [| intros _; apply follows_root_metadata].
  apply follows_for_each. intros [] package. unfold Raising.process_package.
  apply follows_bind; [apply follows_package_entry_component | intros c].
  apply follows_components_append.
Qed.

(** When the run with a callback returns an object, the run with a
    callback that returns from every call returns the same object. *)
Lemma PoetryParser_follows poetry_lock_contents use_purl_bom_ref
    pyproject_toml_contents s s' parser :
  fst (Raising.PoetryParser debug_message poetry_lock_contents use_purl_bom_ref
         pyproject_toml_contents s) = inr parser ->
  fst (Raising.PoetryParser debug_message' poetry_lock_contents use_purl_bom_ref
         pyproject_toml_contents s') = inr parser.
Proof.
  unfold Raising.PoetryParser.
  pose proof (follows_PoetryParser_init "PoetryParser" poetry_lock_contents
                use_purl_bom_ref pyproject_toml_contents
                {| self := fresh; sink := s |} {| self := fresh; sink := s' |} eq_refl)
    as H.
  destruct (Raising.PoetryParser_init debug_message _ _ _ _ _) as [[e | []] h];
    simpl; [discriminate |].
  destruct (H tt eq_refl) as [Hr Hs].
  destruct (Raising.PoetryParser_init debug_message' _ _ _ _ _) as [[e | []] h'];
    simpl in *; [discriminate |].
  intros Hp. injection Hp as <-. rewrite Hs. reflexivity.
Qed.

End Following.

(** The two embeddings are one for a callback that is a function on its
    sink. *)
Lemma PoetryParser_of_returning (lib : Collaborators) (Sink : Type)
    (callback : DebugMessageCallback Sink) poetry_lock_contents use_purl_bom_ref
    pyproject_toml_contents s :
  Raising.PoetryParser (Raising.returning callback) poetry_lock_contents
    use_purl_bom_ref pyproject_toml_contents s
  = PoetryParser callback poetry_lock_contents use_purl_bom_ref
      pyproject_toml_contents s.
Proof. reflexivity. Qed.

(* ------------------------------------------------------------------ *)
(** ** Properties of the conversion *)

(** C1: when the conversion succeeds, there are as many components as package
    entries in the lock document, and the i-th component is the one the loop
    body builds from the i-th entry, with the name and version of that entry;
    nothing is sorted or merged. *)
Theorem components_follow_package_entries :
  forall (lib : Collaborators) (Sink : Type) (debug_message : DebugMessageCallback Sink)
         (poetry_lock_contents : string) (use_purl_bom_ref : bool)
         (pyproject_toml_contents : string) (s : Sink) (parser : Parser),
    fst (PoetryParser debug_message poetry_lock_contents use_purl_bom_ref
           pyproject_toml_contents s) = inr parser ->
    exists poetry_lock metadata packages,
      load_toml poetry_lock_contents = inr poetry_lock
      /\ getitem poetry_lock (VStr "metadata") = inr metadata
      /\ package_entries poetry_lock = inr packages
      /\ length (_components parser) = length packages
      /\ Forall2
           (fun package c =>
              (forall h,
                  fst (package_entry_component debug_message use_purl_bom_ref
                         (poetry_lock_version metadata) metadata package h) = inr c)
              /\ getitem package (VStr "name") = inr (name c)
              /\ getitem package (VStr "version") = inr (version c))
           packages (_components parser).
Proof.
  intros lib Sink debug_message poetry_lock_contents use_purl_bom_ref
    pyproject_toml_contents s parser H.
  rewrite PoetryParser_conversion in H.
  apply conversion_inr in H as (poetry_lock & metadata & packages & Hload & Hmeta & Hentries & Hcs & _).
  exists poetry_lock, metadata, packages.
  apply mapM_Forall2 in Hcs.
  repeat split; try assumption.
  - symmetry. eapply Forall2_length. eassumption.
  - eapply Forall2_impl; [| eassumption].
    intros package c Hc. simpl in Hc. split.
    + intros h. rewrite <- Hc. apply package_entry_component_computes.
    + eapply component_of_package_identity. eassumption.
Qed.



(** C4: a lock document of generation 1, with the files of each package in
    the row of its name in [metadata.files], and a document of generation 2
    with the same packages carrying their files themselves, are converted to
    the same result: the same exception, or the same component list (names,
    versions, identifiers, annotations and references) and root metadata. *)
Theorem generations_agree :
  forall (lib : Collaborators)
         (Sink : Type) (debug_message : DebugMessageCallback Sink) (s : Sink)
         (Sink' : Type) (debug_message' : DebugMessageCallback Sink') (s' : Sink')
         (old_contents new_contents : string) (use_purl_bom_ref : bool)
         (pyproject_toml_contents : string)
         (old_lock new_lock old_metadata new_metadata : Val)
         (files_table : list (string * Val)) (old_packages new_packages : list Val),
    load_toml old_contents = inr old_lock ->
    load_toml new_contents = inr new_lock ->
    getitem old_lock (VStr "metadata") = inr old_metadata ->
    getitem new_lock (VStr "metadata") = inr new_metadata ->
    tuple_ge (poetry_lock_version old_metadata) [2] = false ->
    tuple_ge (poetry_lock_version new_metadata) [2] = true ->
    getitem old_metadata (VStr "files") = inr (VDict files_table) ->
    package_entries old_lock = inr old_packages ->
    package_entries new_lock = inr new_packages ->
    Forall2 (same_package files_table) old_packages new_packages ->
    fst (PoetryParser debug_message old_contents use_purl_bom_ref
           pyproject_toml_contents s)
    = fst (PoetryParser debug_message' new_contents use_purl_bom_ref
             pyproject_toml_contents s').
Proof.
  intros lib Sink debug_message s Sink' debug_message' s' old_contents new_contents
    use_purl_bom_ref pyproject_toml_contents old_lock new_lock old_metadata new_metadata
    files_table old_packages new_packages
    Hload Hload' Hmeta Hmeta' Hgen Hgen' Htable Hentries Hentries' Hsame.
  rewrite !PoetryParser_conversion. unfold conversion.
  rewrite Hload, Hload'. simpl. rewrite Hmeta, Hmeta'. simpl.
  rewrite Hentries, Hentries'. simpl.
  rewrite (@mapM_Forall2_eq _ _
             (component_of_package use_purl_bom_ref (poetry_lock_version old_metadata)
                old_metadata)
             (component_of_package use_purl_bom_ref (poetry_lock_version new_metadata)
                new_metadata)
             old_packages new_packages).
  - reflexivity.
  - eapply Forall2_impl; [| exact Hsame].
    intros old new Hpackage.
    eapply same_package_same_component; eassumption.
Qed.

(** C5: the schema generation is the tuple of the dot-separated integers of
    [metadata.lock-version], so ["1.1"] gives [(1, 1)]; when the field is
    missing or a part of it is not an integer, as in ["garbage"], it is
    [(0,)]; and the read goes on: a document without package entries is
    converted whatever its [lock-version] is. *)
Theorem lock_version_parses_or_defaults :
  forall (lib : Collaborators) (metadata : Val),
    (forall lock_version t,
        getitem metadata (VStr "lock-version") = inr lock_version ->
        mapM Py.int (split "." (Py.str repr_container lock_version)) = inr t ->
        poetry_lock_version metadata = t)
    /\ (forall lock_version e,
          getitem metadata (VStr "lock-version") = inr lock_version ->
          mapM Py.int (split "." (Py.str repr_container lock_version)) = inl e ->
          poetry_lock_version metadata = [0])
    /\ (forall e,
          getitem metadata (VStr "lock-version") = inl e ->
          poetry_lock_version metadata = [0])
    /\ (forall rest,
          poetry_lock_version (VDict (("lock-version", VStr "1.1") :: rest)) = [1; 1])
    /\ (forall rest,
          poetry_lock_version (VDict (("lock-version", VStr "garbage") :: rest)) = [0])
    /\ poetry_lock_version (VDict []) = [0]
    /\ (forall (Sink : Type) (debug_message : DebugMessageCallback Sink) (s : Sink)
               poetry_lock_contents poetry_lock use_purl_bom_ref,
          load_toml poetry_lock_contents = inr poetry_lock ->
          getitem poetry_lock (VStr "metadata") = inr metadata ->
          package_entries poetry_lock = inr [] ->
          fst (PoetryParser debug_message poetry_lock_contents use_purl_bom_ref "" s)
          = inr fresh).
Proof.
  intros lib metadata. unfold poetry_lock_version.
  repeat split.
  - intros lock_version t Hget Hint. rewrite Hget. simpl. rewrite Hint. reflexivity.
  - intros lock_version e Hget Hint. rewrite Hget. simpl. rewrite Hint. reflexivity.
  - intros e Hget. rewrite Hget. reflexivity.
  - intros Sink debug_message s poetry_lock_contents poetry_lock use_purl_bom_ref
      Hload Hmeta Hentries.
    rewrite PoetryParser_conversion. unfold conversion.
    rewrite Hload. simpl. rewrite Hmeta. simpl. rewrite Hentries. reflexivity.
Qed.

(** C6: the lock document with the single [requests] entry of the example, in
    a file of generation 2 or later and without a manifest, gives one
    component named [requests] of version [2.31.0], with the one annotation
    [PackageGroup = main], one reference of type distribution with the
    comment naming the file and the parsed hash, and no root metadata. *)
Theorem requests_example :
  forall (lib : Collaborators) (Sink : Type) (debug_message : DebugMessageCallback Sink)
         (s : Sink) (poetry_lock_contents : string) (use_purl_bom_ref : bool)
         (poetry_lock metadata : Val) (composite_hash location : string)
         (p : PackageURL) (u : XsUri) (digest : HashType),
    load_toml poetry_lock_contents = inr poetry_lock ->
    getitem poetry_lock (VStr "metadata") = inr metadata ->
    tuple_ge (poetry_lock_version metadata) [2] = true ->
    getitem poetry_lock (VStr "package") = inr (VList [Documents.requests composite_hash]) ->
    new_PackageURL "pypi" (VStr "requests") (VStr "2.31.0") = inr p ->
    pypi_url (VStr "requests") (VStr "2.31.0") = inr location ->
    new_XsUri location = inr u ->
    from_composite_str (VStr composite_hash) = inr digest ->
    fst (PoetryParser debug_message poetry_lock_contents use_purl_bom_ref "" s)
    = inr {| _components :=
               [{| name := VStr "requests";
                   version := VStr "2.31.0";
                   bom_ref := if use_purl_bom_ref then Some (to_string p) else None;
                   purl := Some p;
                   properties :=
                     [{| property_name := PackageGroup; property_value := VStr "main" |}];
                   external_references :=
                     [{| reference_type := DISTRIBUTION;
                         url := u;
                         comment := "Distribution file: requests-2.31.0-py3-none-any.whl";
                         hashes := [digest] |}] |}];
             _metadata := None |}.
Proof.
  intros lib Sink debug_message s poetry_lock_contents use_purl_bom_ref poetry_lock
    metadata composite_hash location p u digest
    Hload Hmeta Hgen Hpackage Hpurl Hlocation Huri Hhash.
  rewrite PoetryParser_conversion. unfold conversion, package_entries.
  rewrite Hload. simpl. rewrite Hmeta. simpl. rewrite Hpackage. simpl.
  unfold component_of_package, package_component, package_files. rewrite Hgen.
  simpl. rewrite Hpurl. simpl.
  unfold distribution_reference, get_pypi_url. simpl.
  rewrite Hlocation. simpl. rewrite Huri. simpl. rewrite Hhash. simpl.
  reflexivity.
Qed.

(** C7: a package entry without [name] or without [version] fails the whole
    conversion: the caller gets an exception and no parser object, hence no
    component list.  The exception is raised at that entry: the run of the
    loop, with its result, the heap and what the sink received, is the same
    whatever entries follow it. *)
Theorem missing_name_or_version_is_fatal :
  forall (lib : Collaborators) (Sink : Type) (debug_message : DebugMessageCallback Sink)
         (s : Sink) (poetry_lock_contents : string) (use_purl_bom_ref : bool)
         (pyproject_toml_contents : string) (poetry_lock : Val)
         (before : list Val) (package : Val) (after : list Val),
    load_toml poetry_lock_contents = inr poetry_lock ->
    package_entries poetry_lock = inr (before ++ package :: after)%list ->
    lacks package "name" \/ lacks package "version" ->
    (exists e,
        fst (PoetryParser debug_message poetry_lock_contents use_purl_bom_ref
               pyproject_toml_contents s) = inl e)
    /\ (forall lock_version metadata others h,
           for_each (before ++ package :: after)%list
             (process_package debug_message use_purl_bom_ref lock_version metadata) tt h
           = for_each (before ++ package :: others)%list
               (process_package debug_message use_purl_bom_ref lock_version metadata) tt h)
    /\ (forall lock_version metadata h,
           exists e,
             fst (for_each (before ++ package :: after)%list
                    (process_package debug_message use_purl_bom_ref lock_version metadata)
                    tt h) = inl e).
Proof.
  intros lib Sink debug_message s poetry_lock_contents use_purl_bom_ref
    pyproject_toml_contents poetry_lock before package after Hload Hentries Hlacks.
  assert (Hraises : forall lock_version metadata, exists e,
             component_of_package use_purl_bom_ref lock_version metadata package = inl e).
  { intros lock_version metadata.
    destruct (package_component_raises use_purl_bom_ref Hlacks) as [H | H];
      eexists; apply component_of_package_raises; exact H. }
  assert (Hstep : forall lock_version metadata h, exists e,
             fst (process_package debug_message use_purl_bom_ref lock_version metadata
                    tt package h) = inl e).
  { intros lock_version metadata h.
    destruct (Hraises lock_version metadata) as [e He].
    generalize (process_package_run debug_message use_purl_bom_ref lock_version metadata
                  package h).
    cbv zeta. rewrite He. intros [Hr _]. exists e. exact Hr. }
  split; [| split].
  - rewrite PoetryParser_conversion.
    destruct (getitem poetry_lock (VStr "metadata")) as [e | metadata] eqn:Hmeta.
    + exists e. unfold conversion. rewrite Hload. simpl. rewrite Hmeta. reflexivity.
    + destruct (Hraises (poetry_lock_version metadata) metadata) as [e He].
      eapply conversion_raises; try eassumption.
      apply in_or_app. right. left. reflexivity.
  - intros lock_version metadata others h.
    rewrite !for_each_app. unfold bindM.
    destruct (for_each before _ tt h) as [[e | []] h']; [reflexivity |]. simpl.
    unfold bindM.
    destruct (Hstep lock_version metadata h') as [e He].
    destruct (process_package _ _ _ _ tt package h') as [[e' | []] h'']; simpl in He;
      [reflexivity | discriminate].
  - intros lock_version metadata h.
    rewrite for_each_app. unfold bindM.
    destruct (for_each before _ tt h) as [[e | []] h']; [exists e; reflexivity |]. simpl.
    unfold bindM.
    destruct (Hstep lock_version metadata h') as [e He].
    destruct (process_package _ _ _ _ tt package h') as [[e' | []] h'']; simpl in He;
      [exists e'; reflexivity | discriminate].
Qed.

(** C8, as the code has it: when a manifest is supplied and has no
    [tool.poetry.name] or no [tool.poetry.version], the conversion fails: the
    caller gets an exception and no parser object, hence no root metadata.
    When no manifest is supplied (the empty text), the step returns at once
    and leaves the heap and the sink as they were, and a conversion that
    succeeds has no root metadata. *)
Theorem manifest_without_name_or_version_is_fatal :
  forall (lib : Collaborators) (Sink : Type) (debug_message : DebugMessageCallback Sink)
         (s : Sink) (poetry_lock_contents : string) (use_purl_bom_ref : bool),
    (forall pyproject_toml_contents manifest,
        String.eqb pyproject_toml_contents "" = false ->
        load_toml pyproject_toml_contents = inr manifest ->
        tool_poetry manifest "name" = None \/ tool_poetry manifest "version" = None ->
        exists e,
          fst (PoetryParser debug_message poetry_lock_contents use_purl_bom_ref
                 pyproject_toml_contents s) = inl e)
    /\ (forall h : Heap Sink, root_metadata "" h = (ok tt, h))
    /\ (forall parser,
           fst (PoetryParser debug_message poetry_lock_contents use_purl_bom_ref "" s)
           = inr parser ->
           _metadata parser = None).
Proof.
  intros lib Sink debug_message s poetry_lock_contents use_purl_bom_ref.
  split; [| split].
  - intros pyproject_toml_contents manifest Hsupplied Hload Habsent.
    rewrite PoetryParser_conversion.
    destruct (metadata_of_manifest_raises _ Hsupplied Hload Habsent) as [e He].
    eapply conversion_raises_manifest. eassumption.
  - intros h. reflexivity.
  - intros parser H. rewrite PoetryParser_conversion in H.
    apply conversion_inr in H as (_ & _ & _ & _ & _ & _ & _ & Hm).
    simpl in Hm. injection Hm as <-. reflexivity.
Qed.


(** C9, as the code has it: the callback interferes with the conversion only
    by raising.  With a callback that returns from every call, and reads
    the objects it is given without changing them, the caller gets what it
    gets when the messages are dropped: the same exception, or the same
    component list and root metadata.  With any callback, an object that is
    returned is the one returned when the messages are dropped. *)
Theorem callback_interferes_only_by_raising :
  forall (lib : Collaborators) (Sink : Type)
         (debug_message : Raising.DebugMessageCallback Sink)
         (poetry_lock_contents : string) (use_purl_bom_ref : bool)
         (pyproject_toml_contents : string) (s : Sink),
    ((forall fmt args s', fst (debug_message fmt args s') = inr tt) ->
     fst (Raising.PoetryParser debug_message poetry_lock_contents use_purl_bom_ref
            pyproject_toml_contents s)
     = fst (Raising.PoetryParser (Raising.returning quiet) poetry_lock_contents
              use_purl_bom_ref pyproject_toml_contents tt))
    /\ (forall parser,
          fst (Raising.PoetryParser debug_message poetry_lock_contents use_purl_bom_ref
                 pyproject_toml_contents s) = inr parser ->
          fst (Raising.PoetryParser (Raising.returning quiet) poetry_lock_contents
                 use_purl_bom_ref pyproject_toml_contents tt) = inr parser).
Proof.
  intros lib Sink debug_message poetry_lock_contents use_purl_bom_ref
    pyproject_toml_contents s.
  assert (Hquiet : forall fmt args (u : unit),
             fst (Raising.returning quiet fmt args u) = inr tt)
    by reflexivity.
  split.
  - intros Hreturns.
    rewrite (PoetryParser_returning debug_message Hreturns).
    rewrite (PoetryParser_returning (Raising.returning quiet) Hquiet).
    rewrite !PoetryParser_conversion. reflexivity.
  - intros parser Hparser.
    eapply PoetryParser_follows; [exact Hquiet | exact Hparser].
Qed.

(** C10: in a lock document of generation 2 or later, a package entry without
    [files] fails the whole conversion; the entry gives no component, not one
    without references: once its name, version and category are through, the
    exception is [KeyError('files')]. *)
Theorem missing_files_is_fatal :
  forall (lib : Collaborators) (Sink : Type) (debug_message : DebugMessageCallback Sink)
         (s : Sink) (poetry_lock_contents : string) (use_purl_bom_ref : bool)
         (pyproject_toml_contents : string) (poetry_lock metadata : Val)
         (packages : list Val) (package : Val),
    load_toml poetry_lock_contents = inr poetry_lock ->
    getitem poetry_lock (VStr "metadata") = inr metadata ->
    tuple_ge (poetry_lock_version metadata) [2] = true ->
    package_entries poetry_lock = inr packages ->
    In package packages ->
    lacks package "files" ->
    (exists e,
        fst (PoetryParser debug_message poetry_lock_contents use_purl_bom_ref
               pyproject_toml_contents s) = inl e)
    /\ (forall c h,
           package_component use_purl_bom_ref package = inr c ->
           fst (package_entry_component debug_message use_purl_bom_ref
                  (poetry_lock_version metadata) metadata package h)
           = inl (KeyError (VStr "files"))).
Proof.
  intros lib Sink debug_message s poetry_lock_contents use_purl_bom_ref
    pyproject_toml_contents poetry_lock metadata packages package
    Hload Hmeta Hgen Hentries Hin (d & -> & Hd).
  assert (Hfiles : package_files (poetry_lock_version metadata) metadata (VDict d)
                   = inl (KeyError (VStr "files"))).
  { unfold package_files. rewrite Hgen. simpl. rewrite Hd. reflexivity. }
  destruct (package_files_raises use_purl_bom_ref _ _ _ Hfiles) as [Hthen [e He]].
  split.
  - rewrite PoetryParser_conversion. eapply conversion_raises; eassumption.
  - intros c h Hc. rewrite <- (Hthen c Hc). apply package_entry_component_computes.
Qed.

(* ------------------------------------------------------------------ *)
(** ** Further properties *)

(** X1: when the two files can be read, [PoetryFileParser] gives its caller
    what [PoetryParser] gives on their texts: the same exception, or the same
    components and root metadata.  A manifest file that is empty counts as no
    manifest. *)
Theorem file_parser_converts_the_texts :
  forall (lib : Collaborators) (Sink : Type) (debug_message : DebugMessageCallback Sink)
         (read_text : string -> result string)
         (poetry_lock_filename poetry_toml_filename : string) (use_purl_bom_ref : bool)
         (s : Sink) (poetry_lock_contents pyproject_toml_contents : string),
    read_text poetry_lock_filename = inr poetry_lock_contents ->
    read_text poetry_toml_filename = inr pyproject_toml_contents ->
    fst (PoetryFileParser debug_message read_text poetry_lock_filename use_purl_bom_ref
           poetry_toml_filename s)
    = fst (PoetryParser debug_message poetry_lock_contents use_purl_bom_ref
             pyproject_toml_contents s).
Proof.
  intros lib Sink debug_message read_text poetry_lock_filename poetry_toml_filename
    use_purl_bom_ref s poetry_lock_contents pyproject_toml_contents Hlock Htoml.
  rewrite PoetryParser_conversion.
  unfold PoetryFileParser, PoetryFileParser_init, bindM, eval, debug. simpl.
  rewrite Hlock, Htoml.
  rewrite <- (PoetryParser_init_conversion debug_message "PoetryFileParser"
                poetry_lock_contents use_purl_bom_ref pyproject_toml_contents
                (debug_message "open file: {}" [AStr poetry_lock_filename] s)).
  destruct (PoetryParser_init _ _ _ _ _ _) as [[e | u] h]; reflexivity.
Qed.

(** X2: a file that cannot be read fails the construction with the exception
    of the read, before anything is parsed: the callback was called once,
    with the name of the lock file.  The lock file is read first; the
    manifest file is read even when its name is the default, the empty
    string. *)
Theorem unreadable_file_is_fatal :
  forall (lib : Collaborators) (Sink : Type) (debug_message : DebugMessageCallback Sink)
         (read_text : string -> result string)
         (poetry_lock_filename poetry_toml_filename : string) (use_purl_bom_ref : bool)
         (s : Sink) (e : exn),
    (read_text poetry_lock_filename = inl e
     \/ (exists poetry_lock_contents,
            read_text poetry_lock_filename = inr poetry_lock_contents
            /\ read_text poetry_toml_filename = inl e)) ->
    PoetryFileParser debug_message read_text poetry_lock_filename use_purl_bom_ref
      poetry_toml_filename s
    = (inl e, debug_message "open file: {}" [AStr poetry_lock_filename] s).
Proof.
  intros lib Sink debug_message read_text poetry_lock_filename poetry_toml_filename
    use_purl_bom_ref s e [Hlock | (poetry_lock_contents & Hlock & Htoml)];
    unfold PoetryFileParser, PoetryFileParser_init, bindM, eval, debug; simpl;
    rewrite Hlock; simpl; [| rewrite Htoml]; reflexivity.
Qed.

(** X3: the component of a package entry has the name and version of the
    entry, the package URL built from the type [pypi] and that name and
    version, and as reference key the string of that URL when
    [use_purl_bom_ref] is set and none otherwise. *)
Theorem component_identity :
  forall (lib : Collaborators) (Sink : Type) (debug_message : DebugMessageCallback Sink)
         (use_purl_bom_ref : bool) (lock_version : list Z) (metadata package : Val)
         (h : Heap Sink) (c : Component),
    fst (package_entry_component debug_message use_purl_bom_ref lock_version metadata
           package h) = inr c ->
    exists p,
      getitem package (VStr "name") = inr (name c)
      /\ getitem package (VStr "version") = inr (version c)
      /\ new_PackageURL "pypi" (name c) (version c) = inr p
      /\ purl c = Some p
      /\ bom_ref c = (if use_purl_bom_ref then Some (to_string p) else None).
Proof.
  intros lib Sink debug_message use_purl_bom_ref lock_version metadata package h c H.
  rewrite package_entry_component_value in H.
  apply component_of_package_inr in H as (c0 & files & descriptors & Hc0 & _ & _ & Hrefs).
  apply package_component_inr in Hc0 as (n & v & p & Hn & Hv & Hp & ->).
  destruct (add_references_identity _ _ Hrefs) as [Hname Hversion].
  destruct (add_references_keeps _ _ Hrefs) as (Hbom & Hpurl & _).
  simpl in *. exists p. rewrite Hname, Hversion, Hbom, Hpurl. repeat split; assumption.
Qed.

(** X4: the component of a package entry carries one annotation, the pair of
    [PackageGroup] and the category, when the entry has a [category] that is
    true, and that category can then be hashed; it carries none when the
    entry has no category or one that is false, such as the empty string.
    A category that is true and cannot be hashed, a list or a table, fails
    the entry with [TypeError] when the property is added to the set. *)
Theorem component_group_annotation :
  forall (lib : Collaborators) (Sink : Type) (debug_message : DebugMessageCallback Sink)
         (use_purl_bom_ref : bool) (lock_version : list Z) (metadata package : Val)
         (h : Heap Sink),
    (forall c,
        fst (package_entry_component debug_message use_purl_bom_ref lock_version metadata
               package h) = inr c ->
        properties c = group_annotation package
        /\ (forall category,
              get package "category" = inr (Some category) ->
              truthy category = true ->
              hashable category = true
              /\ properties c
                 = [{| property_name := PackageGroup; property_value := category |}])
        /\ (get package "category" = inr None
            \/ get package "category" = inr (Some (VStr "")) ->
            properties c = []))
    /\ (forall n v p category,
          getitem package (VStr "name") = inr n ->
          getitem package (VStr "version") = inr v ->
          new_PackageURL "pypi" n v = inr p ->
          get package "category" = inr (Some category) ->
          truthy category = true ->
          hashable category = false ->
          fst (package_entry_component debug_message use_purl_bom_ref lock_version
                 metadata package h) = inl TypeError).
Proof.
  intros lib Sink debug_message use_purl_bom_ref lock_version metadata package h.
  split.
  - intros c H. rewrite package_entry_component_value in H.
    apply component_of_package_inr in H
      as (c0 & files & descriptors & Hc0 & _ & _ & Hrefs).
    assert (Hhashable : forall category,
               get package "category" = inr (Some category) ->
               truthy category = true -> hashable category = true).
    { intros category Hget Htrue. unfold package_component in Hc0.
      destruct (getitem package (VStr "name")) as [e | n]; [discriminate |].
      destruct (getitem package (VStr "version")) as [e | v]; [discriminate |].
      simpl in Hc0.
      destruct (new_PackageURL "pypi" n v) as [e | p]; [discriminate |].
      simpl in Hc0. rewrite Hget in Hc0. simpl in Hc0. rewrite Htrue in Hc0.
      unfold properties_add in Hc0. simpl in Hc0.
      destruct (hashable category); [reflexivity | discriminate]. }
    apply package_component_inr in Hc0 as (n & v & p & _ & _ & _ & ->).
    destruct (add_references_keeps _ _ Hrefs) as (_ & _ & Hproperties).
    simpl in Hproperties. rewrite Hproperties. unfold group_annotation.
    split; [reflexivity | split].
    + intros category Hget Htrue. split; [apply Hhashable; assumption |].
      rewrite Hget, Htrue. reflexivity.
    + intros [-> | ->]; reflexivity.
  - intros n v p category Hn Hv Hp Hget Htrue Hhash.
    rewrite package_entry_component_value.
    unfold component_of_package, package_component.
    rewrite Hn, Hv. simpl. rewrite Hp. simpl. rewrite Hget. simpl. rewrite Htrue.
    unfold properties_add. simpl. rewrite Hhash. reflexivity.
Qed.

(** X5: [use_purl_bom_ref] decides the reference key and nothing else: an
    entry fails with it exactly when it fails without it, with the same
    exception, and the component built without it is the one built with it
    less the key. *)
Theorem bom_ref_is_the_only_difference :
  forall (lib : Collaborators)
         (Sink : Type) (debug_message : DebugMessageCallback Sink) (h : Heap Sink)
         (Sink' : Type) (debug_message' : DebugMessageCallback Sink') (h' : Heap Sink')
         (lock_version : list Z) (metadata package : Val),
    fst (package_entry_component debug_message' false lock_version metadata package h')
    = match fst (package_entry_component debug_message true lock_version metadata
                   package h) with
      | inr c => inr (without_bom_ref c)
      | inl e => inl e
      end.
Proof.
  intros. rewrite !package_entry_component_value. apply component_of_package_bom_ref.
Qed.

(** X6: the references of the component of a package entry are those that
    can be built from its file descriptors, each once: a reference is there
    exactly when one of the descriptors gives it, no reference comes twice,
    and there are at most as many as descriptors. *)
Theorem references_of_component :
  forall (lib : Collaborators) (Sink : Type) (debug_message : DebugMessageCallback Sink)
         (use_purl_bom_ref : bool) (lock_version : list Z) (metadata package : Val)
         (h : Heap Sink) (c : Component),
    fst (package_entry_component debug_message use_purl_bom_ref lock_version metadata
           package h) = inr c ->
    exists descriptors,
      bind (package_files lock_version metadata package) iter = inr descriptors
      /\ (forall r,
            In r (external_references c)
            <-> exists d, In d descriptors /\ distribution_reference c d = inr r)
      /\ NoDup (external_references c)
      /\ (length (external_references c) <= length descriptors)%nat.
Proof.
  intros lib Sink debug_message use_purl_bom_ref lock_version metadata package h c H.
  rewrite package_entry_component_value in H.
  apply component_of_package_inr in H
    as (c0 & files & descriptors & Hc0 & Hfiles & Hiter & Hrefs).
  pose proof (package_component_no_references _ _ Hc0) as Hnone.
  destruct (add_references_identity _ _ Hrefs) as [Hname Hversion].
  exists descriptors. rewrite Hfiles. simpl. split; [exact Hiter | split; [| split]].
  - intros r. rewrite (add_references_In _ _ Hrefs r), Hnone. simpl. split.
    + intros [[] | (d & Hin & Hd)]. exists d. split; [exact Hin |].
      rewrite <- Hd. apply distribution_reference_identity; assumption.
    + intros (d & Hin & Hd). right. exists d. split; [exact Hin |].
      rewrite <- Hd. apply distribution_reference_identity; symmetry; assumption.
  - eapply add_references_NoDup; [eassumption |]. rewrite Hnone. constructor.
  - pose proof (add_references_length _ _ Hrefs) as Hlen. rewrite Hnone in Hlen.
    simpl in Hlen. exact Hlen.
Qed.

(** X7: every reference of a component is of type distribution, has as URL
    the [XsUri] of the PyPI URL of the component, so that all the references
    of a component have the same URL, and has one hash, parsed from the
    [hash] of a descriptor of the package whose [file] its comment names. *)
Theorem references_have_one_shape :
  forall (lib : Collaborators) (Sink : Type) (debug_message : DebugMessageCallback Sink)
         (use_purl_bom_ref : bool) (lock_version : list Z) (metadata package : Val)
         (h : Heap Sink) (c : Component) (r : ExternalReference),
    fst (package_entry_component debug_message use_purl_bom_ref lock_version metadata
           package h) = inr c ->
    In r (external_references c) ->
    reference_type r = DISTRIBUTION
    /\ (exists location,
          get_pypi_url c = inr location /\ new_XsUri location = inr (url r))
    /\ exists descriptors d file composite hash,
        bind (package_files lock_version metadata package) iter = inr descriptors
        /\ In d descriptors
        /\ getitem d (VStr "file") = inr file
        /\ getitem d (VStr "hash") = inr composite
        /\ from_composite_str composite = inr hash
        /\ comment r = "Distribution file: " ++ Py.str repr_container file
        /\ hashes r = [hash].
Proof.
  intros lib Sink debug_message use_purl_bom_ref lock_version metadata package h c r H Hr.
  apply references_shape_source in H as (descriptors & Hfiles & Hin).
  apply Hin in Hr as (d & Hd & Hreference).
  unfold distribution_reference in Hreference.
  destruct (get_pypi_url c) as [e | location] eqn:Hlocation; [discriminate |].
  simpl in Hreference.
  destruct (new_XsUri location) as [e | u] eqn:Huri; [discriminate |].
  simpl in Hreference.
  destruct (getitem d (VStr "file")) as [e | file] eqn:Hfile; [discriminate |].
  simpl in Hreference.
  destruct (getitem d (VStr "hash")) as [e | composite] eqn:Hhash; [discriminate |].
  simpl in Hreference.
  destruct (from_composite_str composite) as [e | hash] eqn:Hparse; [discriminate |].
  simpl in Hreference. injection Hreference as <-. simpl.
  split; [reflexivity | split].
  - exists location. split; [reflexivity | exact Huri].
  - exists descriptors, d, file, composite, hash. repeat split; assumption || reflexivity.
Qed.

(** X8: the hash is the only part of a file descriptor that may be bad.  When
    the URL of the references can be built, a descriptor without [file] or
    without [hash] fails the entry, and with it the conversion: the
    [KeyError] is not of the class the loop suppresses. *)
Theorem descriptor_without_file_or_hash_is_fatal :
  forall (lib : Collaborators) (Sink : Type) (debug_message : DebugMessageCallback Sink)
         (use_purl_bom_ref : bool) (lock_version : list Z) (metadata package : Val)
         (h : Heap Sink) (c0 : Component) (descriptors : list Val) (d : Val)
         (location : string) (u : XsUri),
    package_component use_purl_bom_ref package = inr c0 ->
    bind (package_files lock_version metadata package) iter = inr descriptors ->
    get_pypi_url c0 = inr location ->
    new_XsUri location = inr u ->
    In d descriptors ->
    lacks d "file" \/ lacks d "hash" ->
    exists e,
      fst (package_entry_component debug_message use_purl_bom_ref lock_version metadata
             package h) = inl e.
Proof.
  intros lib Sink debug_message use_purl_bom_ref lock_version metadata package h c0
    descriptors d location u Hc0 Hfiles Hlocation Huri Hin Hlacks.
  rewrite package_entry_component_value. unfold component_of_package.
  rewrite Hc0. simpl.
  destruct (package_files lock_version metadata package) as [e | files];
    [discriminate |]. simpl in *. rewrite Hfiles. simpl.
  assert (Hd : exists key, distribution_reference c0 d = inl (KeyError (VStr key))).
  { unfold distribution_reference. rewrite Hlocation. simpl. rewrite Huri. simpl.
    destruct Hlacks as [(kv & -> & Hkey) | (kv & -> & Hkey)]; simpl.
    - rewrite Hkey. exists "file". reflexivity.
    - destruct (assoc "file" kv); simpl; [rewrite Hkey; exists "hash" | exists "file"];
        reflexivity. }
  destruct Hd as [key Hd].
  eapply add_references_raises; [exact Hin | exact Hd | reflexivity].
Qed.

(** X9: when the [XsUri] of the PyPI URL of a component cannot be built and
    the exception is a [CycloneDxModelException], every file descriptor of
    the package is left out: the component is returned without references,
    whatever the descriptors hold. *)
Theorem invalid_url_leaves_no_reference :
  forall (lib : Collaborators) (Sink : Type) (debug_message : DebugMessageCallback Sink)
         (use_purl_bom_ref : bool) (lock_version : list Z) (metadata package : Val)
         (h : Heap Sink) (c0 : Component) (descriptors : list Val) (e : exn),
    package_component use_purl_bom_ref package = inr c0 ->
    bind (package_files lock_version metadata package) iter = inr descriptors ->
    bind (get_pypi_url c0) new_XsUri = inl e ->
    is_CycloneDxModelException e = true ->
    fst (package_entry_component debug_message use_purl_bom_ref lock_version metadata
           package h) = inr c0
    /\ external_references c0 = [].
Proof.
  intros lib Sink debug_message use_purl_bom_ref lock_version metadata package h c0
    descriptors e Hc0 Hfiles Hurl Hclass.
  split; [| eapply package_component_no_references; eassumption].
  rewrite package_entry_component_value. unfold component_of_package.
  rewrite Hc0. simpl.
  destruct (package_files lock_version metadata package) as [e' | files];
    [discriminate |]. simpl in *. rewrite Hfiles. simpl.
  apply add_references_none. intros d _. exists e. split; [| exact Hclass].
  unfold distribution_reference.
  destruct (get_pypi_url c0) as [e' | location]; simpl in *;
    [injection Hurl as ->; reflexivity |].
  rewrite Hurl. reflexivity.
Qed.

(** X10: the generation is never the empty tuple, and where the files of a
    package are looked for depends on its first number alone: on the entry
    when that number is 2 or more, in [metadata.files] otherwise. *)
Theorem generation_dispatch_on_first_number :
  forall (lib : Collaborators) (metadata package : Val),
    exists major rest,
      poetry_lock_version metadata = major :: rest
      /\ package_files (poetry_lock_version metadata) metadata package
         = if 2 <=? major
           then getitem package (VStr "files")
           else
             (let? files := getitem metadata (VStr "files") in
              let? name := getitem package (VStr "name") in
              getitem files name).
Proof.
  intros lib metadata package.
  destruct (poetry_lock_version metadata) as [| major rest] eqn:Hversion.
  - apply poetry_lock_version_not_nil in Hversion. contradiction.
  - exists major, rest. split; [reflexivity |].
    assert (Hge : tuple_ge (major :: rest) [2] = (2 <=? major)).
    { simpl. destruct (Z.eqb_spec major 2) as [-> | Hne];
        [destruct rest; reflexivity |].
      destruct (Z.ltb_spec 2 major), (Z.leb_spec 2 major); try reflexivity; lia. }
    unfold package_files. rewrite Hge. reflexivity.
Qed.

(** X11: a [lock-version] that is an integer rather than a string is read
    through [str]: the generation of [lock-version = z] is [(z,)], for every
    integer [z]. *)
Theorem integer_lock_version :
  forall (lib : Collaborators) (metadata : Val) (z : Z),
    getitem metadata (VStr "lock-version") = inr (VInt z) ->
    poetry_lock_version metadata = [z].
Proof.
  intros lib metadata z Hget. unfold poetry_lock_version. rewrite Hget. simpl.
  rewrite split_plain by apply plain_str_int. simpl. rewrite int_str. reflexivity.
Qed.

(** X12: the manifest is read after the last package entry.  The conversion
    with a manifest is the conversion without it followed by the root
    metadata: an exception of the lock file comes before any of the manifest,
    and the component list does not depend on the manifest. *)
Theorem manifest_is_read_last :
  forall (lib : Collaborators)
         (Sink : Type) (debug_message : DebugMessageCallback Sink) (s : Sink)
         (Sink' : Type) (debug_message' : DebugMessageCallback Sink') (s' : Sink')
         (poetry_lock_contents : string) (use_purl_bom_ref : bool)
         (pyproject_toml_contents : string),
    fst (PoetryParser debug_message poetry_lock_contents use_purl_bom_ref
           pyproject_toml_contents s)
    = match fst (PoetryParser debug_message' poetry_lock_contents use_purl_bom_ref
                   "" s') with
      | inl e => inl e
      | inr parser =>
          match metadata_of_manifest pyproject_toml_contents with
          | inl e => inl e
          | inr m => inr {| _components := _components parser; _metadata := m |}
          end
      end.
Proof.
  intros. rewrite !PoetryParser_conversion. apply conversion_manifest.
Qed.

(** X13: when the conversion succeeds with a manifest, the root metadata is
    one component with the name and the version of [tool.poetry] in the
    manifest, and with no package URL, no reference key, no annotation and
    no reference. *)
Theorem root_metadata_of_manifest :
  forall (lib : Collaborators) (Sink : Type) (debug_message : DebugMessageCallback Sink)
         (s : Sink) (poetry_lock_contents : string) (use_purl_bom_ref : bool)
         (pyproject_toml_contents : string) (parser : Parser),
    String.eqb pyproject_toml_contents "" = false ->
    fst (PoetryParser debug_message poetry_lock_contents use_purl_bom_ref
           pyproject_toml_contents s) = inr parser ->
    exists manifest n v,
      load_toml pyproject_toml_contents = inr manifest
      /\ tool_poetry manifest "name" = Some n
      /\ tool_poetry manifest "version" = Some v
      /\ _metadata parser
         = Some {| component :=
                     {| name := n; version := v; bom_ref := None; purl := None;
                        properties := []; external_references := [] |} |}.
Proof.
  intros lib Sink debug_message s poetry_lock_contents use_purl_bom_ref
    pyproject_toml_contents parser Hsupplied H.
  rewrite PoetryParser_conversion in H.
  apply conversion_inr in H as (_ & _ & _ & _ & _ & _ & _ & Hm).
  apply (metadata_of_manifest_inr _ Hsupplied) in Hm
    as (manifest & n & v & Hload & Hn & Hv & Hm).
  exists manifest, n, v. repeat split; assumption.
Qed.

(** X14: a lock document without [metadata] raises [KeyError('metadata')]
    after the first two messages, and one with [metadata] but without
    [package] raises [KeyError('package')] after the fourth; in both cases
    the manifest is not looked at. *)
Theorem document_without_metadata_or_package :
  forall (lib : Collaborators) (Sink : Type) (debug_message : DebugMessageCallback Sink)
         (s : Sink) (poetry_lock_contents : string) (use_purl_bom_ref : bool)
         (pyproject_toml_contents : string) (d : list (string * Val)),
    load_toml poetry_lock_contents = inr (VDict d) ->
    assoc "metadata" d = None \/ assoc "package" d = None ->
    let loading :=
      debug_message "loading poetry_lock_contents" []
        (debug_message "init {}" [AStr "PoetryParser"] s) in
    PoetryParser debug_message poetry_lock_contents use_purl_bom_ref
      pyproject_toml_contents s
    = match assoc "metadata" d with
      | None => (inl (KeyError (VStr "metadata")), loading)
      | Some metadata =>
          (inl (KeyError (VStr "package")),
           debug_message "processing poetry_lock" []
             (debug_message "detected poetry_lock_version: {!r}"
                [ATuple (poetry_lock_version metadata)] loading))
      end.
Proof.
  intros lib Sink debug_message s poetry_lock_contents use_purl_bom_ref
    pyproject_toml_contents d Hload Hlacks loading. subst loading.
  unfold PoetryParser, PoetryParser_init, bindM, eval, debug. simpl.
  rewrite Hload. simpl.
  destruct (assoc "metadata" d) as [metadata |]; simpl; [| reflexivity].
  destruct Hlacks as [Hlacks | Hlacks]; [discriminate |].
  rewrite Hlacks. reflexivity.
Qed.

(** X15: when [package] is a table and not an array of tables, the loop runs
    over the keys of the table: a table with a key fails the conversion with
    [TypeError] at the first key, which is a string and has no [name]. *)
Theorem package_table_is_a_type_error :
  forall (lib : Collaborators) (Sink : Type) (debug_message : DebugMessageCallback Sink)
         (s : Sink) (poetry_lock_contents : string) (use_purl_bom_ref : bool)
         (pyproject_toml_contents : string) (poetry_lock metadata : Val)
         (key : string) (entry : Val) (rest : list (string * Val)),
    load_toml poetry_lock_contents = inr poetry_lock ->
    getitem poetry_lock (VStr "metadata") = inr metadata ->
    getitem poetry_lock (VStr "package") = inr (VDict ((key, entry) :: rest)) ->
    fst (PoetryParser debug_message poetry_lock_contents use_purl_bom_ref
           pyproject_toml_contents s) = inl TypeError.
Proof.
  intros lib Sink debug_message s poetry_lock_contents use_purl_bom_ref
    pyproject_toml_contents poetry_lock metadata key entry rest Hload Hmeta Hpackage.
  rewrite PoetryParser_conversion. unfold conversion, package_entries.
  rewrite Hload. simpl. rewrite Hmeta. simpl. rewrite Hpackage. reflexivity.
Qed.

(** X16: of a package entry only [name], [version], [category] and [files]
    are read: two entries that agree on these four give the same component,
    or the same exception, whatever else they hold. *)
Theorem other_fields_are_ignored :
  forall (lib : Collaborators)
         (Sink : Type) (debug_message : DebugMessageCallback Sink) (h : Heap Sink)
         (Sink' : Type) (debug_message' : DebugMessageCallback Sink') (h' : Heap Sink')
         (use_purl_bom_ref : bool) (lock_version : list Z) (metadata package package' : Val),
    getitem package (VStr "name") = getitem package' (VStr "name") ->
    getitem package (VStr "version") = getitem package' (VStr "version") ->
    get package "category" = get package' "category" ->
    getitem package (VStr "files") = getitem package' (VStr "files") ->
    fst (package_entry_component debug_message use_purl_bom_ref lock_version metadata
           package h)
    = fst (package_entry_component debug_message' use_purl_bom_ref lock_version metadata
             package' h').
Proof.
  intros lib Sink debug_message h Sink' debug_message' h' use_purl_bom_ref lock_version
    metadata package package' Hname Hversion Hcategory Hfiles.
  rewrite !package_entry_component_value.
  unfold component_of_package, package_component, package_files.
  rewrite Hname, Hversion, Hcategory, Hfiles. reflexivity.
Qed.

(** The well-known groups have distinct values, as [@unique] asks. *)
Lemma PoetryGroupWellknown_unique :
  forall group group' : PoetryGroupWellknown,
    PoetryGroupWellknown_value group = PoetryGroupWellknown_value group' <->
    group = group'.
Proof.
  intros [|] [|]; simpl; split; intros H; reflexivity || discriminate.
Qed.

(** X17: a lock document of a generation before 2, and so every document
    whose [lock-version] could not be read, needs the table
    [metadata.files]: without it the conversion fails as soon as there is a
    package entry, with [KeyError('files')] when the name, version and
    category of the first entry are through. *)
Theorem old_generation_needs_files_table :
  forall (lib : Collaborators) (Sink : Type) (debug_message : DebugMessageCallback Sink)
         (s : Sink) (poetry_lock_contents : string) (use_purl_bom_ref : bool)
         (pyproject_toml_contents : string) (poetry_lock metadata : Val)
         (package : Val) (packages : list Val),
    load_toml poetry_lock_contents = inr poetry_lock ->
    getitem poetry_lock (VStr "metadata") = inr metadata ->
    tuple_ge (poetry_lock_version metadata) [2] = false ->
    lacks metadata "files" ->
    package_entries poetry_lock = inr (package :: packages) ->
    (exists e,
        fst (PoetryParser debug_message poetry_lock_contents use_purl_bom_ref
               pyproject_toml_contents s) = inl e)
    /\ (forall c,
           package_component use_purl_bom_ref package = inr c ->
           fst (PoetryParser debug_message poetry_lock_contents use_purl_bom_ref
                  pyproject_toml_contents s) = inl (KeyError (VStr "files"))).
Proof.
  intros lib Sink debug_message s poetry_lock_contents use_purl_bom_ref
    pyproject_toml_contents poetry_lock metadata package packages
    Hload Hmeta Hgen (d & -> & Hd) Hentries.
  assert (Hfiles : package_files (poetry_lock_version (VDict d)) (VDict d) package
                   = inl (KeyError (VStr "files"))).
  { unfold package_files. rewrite Hgen. simpl. rewrite Hd. reflexivity. }
  destruct (package_files_raises use_purl_bom_ref _ _ _ Hfiles) as [Hthen [e He]].
  rewrite PoetryParser_conversion. unfold conversion.
  rewrite Hload. simpl. rewrite Hmeta. simpl. rewrite Hentries. simpl. split.
  - rewrite He. exists e. reflexivity.
  - intros c Hc. rewrite (Hthen c Hc). reflexivity.
Qed.


(** X19: the order of the file descriptors of a package does not matter to
    its references: when the loop over the descriptors returns, it returns
    for every reordering of them, with the same name, version, package URL,
    reference key and annotations, and with the same references as a set. *)
Theorem descriptor_order_is_irrelevant :
  forall (lib : Collaborators)
         (Sink : Type) (debug_message : DebugMessageCallback Sink) (h : Heap Sink)
         (Sink' : Type) (debug_message' : DebugMessageCallback Sink') (h' : Heap Sink')
         (descriptors descriptors' : list Val) (c0 c : Component),
    Permutation descriptors descriptors' ->
    fst (for_each descriptors (process_file_metadata debug_message) c0 h) = inr c ->
    exists c',
      fst (for_each descriptors' (process_file_metadata debug_message') c0 h') = inr c'
      /\ name c' = name c /\ version c' = version c
      /\ purl c' = purl c /\ bom_ref c' = bom_ref c
      /\ properties c' = properties c
      /\ forall r, In r (external_references c') <-> In r (external_references c).
Proof.
  intros lib Sink debug_message h Sink' debug_message' h' descriptors descriptors' c0 c
    Hperm Hc.
  rewrite (proj1 (files_loop_computes debug_message descriptors c0 h)) in Hc.
  assert (Hall : Forall (passes c0) descriptors')
    by (eapply Permutation_Forall; [exact Hperm |];
        apply add_references_returns; exists c; exact Hc).
  apply add_references_returns in Hall as [c' Hc'].
  exists c'.
  rewrite (proj1 (files_loop_computes debug_message' descriptors' c0 h')).
  destruct (add_references_identity _ _ Hc) as [Hn Hv].
  destruct (add_references_identity _ _ Hc') as [Hn' Hv'].
  destruct (add_references_keeps _ _ Hc) as (Hb & Hp & Hprops).
  destruct (add_references_keeps _ _ Hc') as (Hb' & Hp' & Hprops').
  repeat split; try congruence.
  - rewrite (add_references_In _ _ Hc' r), (add_references_In _ _ Hc r).
    intros [Hr | (d & Hin & Hd)]; [left; exact Hr |].
    right. exists d. split; [| exact Hd].
    eapply Permutation_in; [apply Permutation_sym; exact Hperm | exact Hin].
  - rewrite (add_references_In _ _ Hc' r), (add_references_In _ _ Hc r).
    intros [Hr | (d & Hin & Hd)]; [left; exact Hr |].
    right. exists d. split; [| exact Hd].
    eapply Permutation_in; [exact Hperm | exact Hin].
Qed.

(* ------------------------------------------------------------------ *)
(** ** The properties at the documents of [Documents] *)

Section Runs.
#[local] Existing Instance Documents.library.
Import Documents.

(** C1 at the lock file with the same name and version twice: two
    components, in the order of the entries. *)
Lemma components_follow_package_entries_twice :
  exists parser,
    fst (PoetryParser recorder twice_lock_text false "" []) = inr parser
    /\ length (_components parser) = 2%nat
    /\ exists poetry_lock metadata packages,
        load_toml twice_lock_text = inr poetry_lock
        /\ getitem poetry_lock (VStr "metadata") = inr metadata
        /\ package_entries poetry_lock = inr packages
        /\ length (_components parser) = length packages
        /\ Forall2
             (fun package c =>
                (forall h,
                    fst (package_entry_component recorder false
                           (poetry_lock_version metadata) metadata package h) = inr c)
                /\ getitem package (VStr "name") = inr (name c)
                /\ getitem package (VStr "version") = inr (version c))
             packages (_components parser).
Proof.
  eexists. split; [vm_compute; reflexivity |].
  split; [reflexivity |].
  apply (@components_follow_package_entries library _ recorder twice_lock_text false "" []).
  vm_compute. reflexivity.
Defined.


(** C2 as stated does not hold: a failure of the parsing of a hash that is
    not a [CycloneDxModelException] is not suppressed.  With a library that
    takes the digest after the colon, the hash [sha256] without colon raises
    [IndexError]; the descriptor is not left out: the conversion of the lock
    file raises that exception and returns no component. *)
Lemma unsuppressed_hash_failure :
  @from_composite_str MoreDocuments.splitting_library (VStr "sha256") = inl IndexError
  /\ @load_toml MoreDocuments.splitting_library MoreDocuments.colon_lock_text
     = inr MoreDocuments.colon_lock
  /\ fst (@PoetryParser MoreDocuments.splitting_library unit quiet
            MoreDocuments.colon_lock_text false "" tt)
     = inl IndexError.
Proof. repeat split; vm_compute; reflexivity. Qed.



(** C4 at the two lock files of the package [six]. *)
Lemma generations_agree_six :
  fst (PoetryParser recorder old_lock_text false manifest_text [])
  = fst (PoetryParser quiet new_lock_text false manifest_text tt).
Proof.
  apply (@generations_agree library _ recorder [] _ quiet tt old_lock_text new_lock_text
           false manifest_text old_lock new_lock
           (VDict [("lock-version", VStr "1.1"); ("files", VDict [("six", VList [six_tar])])])
           (VDict [("lock-version", VStr "2.0")])
           [("six", VList [six_tar])]
           [VDict [("name", VStr "six"); ("version", VStr "1.16.0"); ("category", VStr "dev")]]
           [VDict [("name", VStr "six"); ("version", VStr "1.16.0"); ("category", VStr "dev");
                   ("files", VList [six_tar])]]);
    try (vm_compute; reflexivity).
  constructor; [| constructor].
  exists "six", (VList [six_tar]). repeat split; reflexivity.
Defined.

(** C5 at the lock file without packages whose [lock-version] is [garbage]. *)
Lemma lock_version_parses_or_defaults_garbage :
  poetry_lock_version (VDict [("lock-version", VStr "garbage")]) = [0]
  /\ fst (PoetryParser recorder empty_lock_text false "" []) = inr fresh.
Proof.
  destruct (@lock_version_parses_or_defaults library
              (VDict [("lock-version", VStr "garbage")]))
    as (_ & _ & _ & _ & Hgarbage & _ & Hread).
  split.
  - apply (Hgarbage []).
  - apply (Hread _ recorder [] empty_lock_text empty_lock false); reflexivity.
Defined.

(** C6 at the text of the lock file of the example. *)
Lemma requests_example_run :
  fst (PoetryParser recorder requests_lock_text false "" [])
  = inr {| _components :=
             [{| name := VStr "requests";
                 version := VStr "2.31.0";
                 bom_ref := None;
                 purl := Some ("pypi", "requests", "2.31.0");
                 properties :=
                   [{| property_name := "cdx:poetry:package:group";
                       property_value := VStr "main" |}];
                 external_references :=
                   [{| reference_type := DISTRIBUTION;
                       url := "https://pypi.org/project/requests/2.31.0" : XsUri;
                       comment := "Distribution file: requests-2.31.0-py3-none-any.whl";
                       hashes :=
                         [("sha256",
                           "58cd2187c01e70e6e26505bca751777aa9f2ee0b7f4300988b709f44e013003f")] |}] |}];
           _metadata := None |}.
Proof.
  apply (@requests_example library _ recorder [] requests_lock_text false requests_lock
           (VDict [("lock-version", VStr "2.0")]) requests_hash
           "https://pypi.org/project/requests/2.31.0");
    vm_compute; reflexivity.
Defined.

(** C7 at the lock file whose second entry of three has no [name]: the
    conversion raises, and the loop stops at that entry. *)
Lemma missing_name_or_version_is_fatal_second :
  let headless := VDict [("version", VStr "0.1"); ("files", VList [])] in
  let idna := VDict [("name", VStr "idna"); ("version", VStr "3.4"); ("files", VList [])] in
  (exists e, fst (PoetryParser recorder noname_lock_text false manifest_text []) = inl e)
  /\ (forall lock_version metadata others h,
         for_each (six [] :: headless :: [idna])
           (process_package recorder false lock_version metadata) tt h
         = for_each (six [] :: headless :: others)
             (process_package recorder false lock_version metadata) tt h).
Proof.
  intros headless idna.
  destruct (@missing_name_or_version_is_fatal library _ recorder [] noname_lock_text
              false manifest_text noname_lock [six []] headless [idna])
    as (Hraises & Hstops & _).
  - reflexivity.
  - reflexivity.
  - left. exists [("version", VStr "0.1"); ("files", VList [])]. split; reflexivity.
  - split; [exact Hraises | exact Hstops].
Defined.

(** C8 as stated does not hold: the failure for a manifest without
    [tool.poetry.name] is not told apart from a failure of the lock file.
    With a good lock file and that manifest, and with a lock file that has an
    entry without [name] and a good manifest, the caller gets the same
    exception, [KeyError('name')]. *)
Lemma manifest_error_is_not_distinct :
  load_toml noname_manifest_text = inr noname_manifest
  /\ tool_poetry noname_manifest "name" = None
  /\ fst (PoetryParser quiet requests_lock_text false noname_manifest_text tt)
     = inl (KeyError (VStr "name"))
  /\ fst (PoetryParser quiet noname_lock_text false manifest_text tt)
     = inl (KeyError (VStr "name")).
Proof. repeat split; vm_compute; reflexivity. Qed.

(** C8, as the code has it, at the manifest without name. *)
Lemma manifest_without_name_or_version_is_fatal_noname :
  (exists e,
      fst (PoetryParser recorder requests_lock_text false noname_manifest_text []) = inl e)
  /\ (forall parser,
         fst (PoetryParser recorder requests_lock_text false "" []) = inr parser ->
         _metadata parser = None).
Proof.
  destruct (@manifest_without_name_or_version_is_fatal library _ recorder []
              requests_lock_text false)
    as (Hraises & _ & Hnone).
  split; [| exact Hnone].
  apply (Hraises noname_manifest_text noname_manifest); [reflexivity | reflexivity |].
  left. reflexivity.
Defined.

(** C9 as stated does not hold: the callback is called outside any [try]
    of its own, so one that raises changes what the caller gets.  The lock
    file with a hash that cannot be parsed is converted to two components
    when the messages are dropped; with the callback that raises when it is
    given a warning, the conversion raises its exception. *)
Lemma raising_callback_interferes :
  fst (Raising.PoetryParser Raising.alarm twice_lock_text false "" [])
  = inl (RuntimeError "Warning")
  /\ exists parser,
      fst (Raising.PoetryParser (Raising.returning quiet) twice_lock_text false "" tt)
      = inr parser
      /\ length (_components parser) = 2%nat.
Proof.
  split; [vm_compute; reflexivity |].
  eexists. split; [vm_compute; reflexivity | reflexivity].
Qed.

(** C9, as the code has it, at the same lock file, with the callback that
    records and returns. *)
Lemma callback_interferes_only_by_raising_recorder :
  fst (Raising.PoetryParser (Raising.returning recorder) twice_lock_text false "" [])
  = fst (Raising.PoetryParser (Raising.returning quiet) twice_lock_text false "" tt).
Proof.
  apply (proj1 (@callback_interferes_only_by_raising library _
                  (Raising.returning recorder) twice_lock_text false "" [])).
  intros fmt args log. reflexivity.
Defined.

(** C10 at the lock file of generation 2 whose entry has no [files]. *)
Lemma missing_files_is_fatal_nofiles :
  (exists e, fst (PoetryParser recorder nofiles_lock_text false "" []) = inl e)
  /\ (forall c h,
         package_component false (VDict [("name", VStr "six"); ("version", VStr "1.16.0")])
         = inr c ->
         fst (package_entry_component recorder false
                (poetry_lock_version (VDict [("lock-version", VStr "2.0")]))
                (VDict [("lock-version", VStr "2.0")])
                (VDict [("name", VStr "six"); ("version", VStr "1.16.0")]) h)
         = inl (KeyError (VStr "files"))).
Proof.
  apply (@missing_files_is_fatal library _ recorder [] nofiles_lock_text false ""
           nofiles_lock (VDict [("lock-version", VStr "2.0")])
           [VDict [("name", VStr "six"); ("version", VStr "1.16.0")]]
           (VDict [("name", VStr "six"); ("version", VStr "1.16.0")]));
    try (vm_compute; reflexivity).
  - simpl. left. reflexivity.
  - exists [("name", VStr "six"); ("version", VStr "1.16.0")]. split; reflexivity.
Defined.

End Runs.

(* ------------------------------------------------------------------ *)
(** ** The further properties at the documents of [MoreDocuments] *)

Section MoreRuns.
#[local] Existing Instance MoreDocuments.library.
Import Documents MoreDocuments.

(** X1 at the directory with [poetry.lock] and [pyproject.toml]. *)
Lemma file_parser_converts_the_texts_requests :
  fst (PoetryFileParser recorder directory "poetry.lock" false "pyproject.toml" [])
  = fst (PoetryParser recorder requests_lock_text false manifest_text []).
Proof.
  apply (@file_parser_converts_the_texts library _ recorder directory
           "poetry.lock" "pyproject.toml" false [] requests_lock_text manifest_text);
    reflexivity.
Defined.

(** X2 with the default name of the manifest file, which no file has. *)
Lemma unreadable_file_is_fatal_default :
  PoetryFileParser recorder directory "poetry.lock" false default_poetry_toml_filename []
  = (inl (RuntimeError "FileNotFoundError"), ["open file: {}"]).
Proof.
  apply (@unreadable_file_is_fatal library _ recorder directory "poetry.lock"
           default_poetry_toml_filename false [] (RuntimeError "FileNotFoundError")).
  right. exists requests_lock_text. split; reflexivity.
Defined.

(** X3 at the entry of [requests], with the URL as reference key. *)
Lemma component_identity_requests :
  exists c,
    fst (package_entry_component recorder true [2; 0] second (requests requests_hash)
           empty) = inr c
    /\ exists p,
        getitem (requests requests_hash) (VStr "name") = inr (name c)
        /\ getitem (requests requests_hash) (VStr "version") = inr (version c)
        /\ new_PackageURL "pypi" (name c) (version c) = inr p
        /\ purl c = Some p
        /\ bom_ref c = Some (to_string p).
Proof.
  eexists. split; [vm_compute; reflexivity |].
  apply (@component_identity library _ recorder true [2; 0] second
           (requests requests_hash) empty).
  vm_compute. reflexivity.
Defined.

(** X4 at the entry of [requests], whose category is [main], and at an entry
    whose category is a list. *)
Lemma component_group_annotation_requests :
  (exists c,
      fst (package_entry_component recorder false [2; 0] second (requests requests_hash)
             empty) = inr c
      /\ properties c
         = [{| property_name := "cdx:poetry:package:group";
               property_value := VStr "main" |}])
  /\ fst (package_entry_component recorder false [2; 0] second grouped empty)
     = inl TypeError.
Proof.
  split.
  - eexists. split; [vm_compute; reflexivity |].
    refine (proj2 (proj1 (proj2 (proj1
              (@component_group_annotation library _ recorder false [2; 0] second
                 (requests requests_hash) empty) _ _))
              (VStr "main") _ _));
      vm_compute; reflexivity.
  - apply (proj2 (@component_group_annotation library _ recorder false [2; 0] second
                    grouped empty)
             (VStr "six") (VStr "1.16.0") ("pypi", "six", "1.16.0")
             (VList [VStr "dev"; VStr "docs"]));
      reflexivity.
Defined.

(** X6 and X7 at the entry of [six] with the [.tar.gz] twice and the [.zip]
    whose hash is bad: three descriptors, one reference. *)
Lemma references_of_component_six :
  exists c,
    fst (package_entry_component recorder false [2; 0] second
           (six [six_tar; six_zip; six_tar]) empty) = inr c
    /\ length (external_references c) = 1%nat
    /\ exists descriptors,
        bind (package_files [2; 0] second (six [six_tar; six_zip; six_tar])) iter
        = inr descriptors
        /\ (forall r,
              In r (external_references c)
              <-> exists d, In d descriptors /\ distribution_reference c d = inr r)
        /\ NoDup (external_references c)
        /\ (length (external_references c) <= length descriptors)%nat.
Proof.
  eexists. split; [vm_compute; reflexivity |].
  split; [reflexivity |].
  apply (@references_of_component library _ recorder false [2; 0] second
           (six [six_tar; six_zip; six_tar]) empty).
  vm_compute. reflexivity.
Defined.

Lemma references_have_one_shape_six :
  let r :=
    {| reference_type := DISTRIBUTION;
       url := "https://pypi.org/project/six/1.16.0" : XsUri;
       comment := "Distribution file: six-1.16.0.tar.gz";
       hashes :=
         [("sha256", "1e61c37477a1626458e36f7b1d82aa5c9b094fa4802892072e49de9c60c4c926")]
    |} in
  let c :=
    external_references_add
      (new_Component (VStr "six") (VStr "1.16.0") None (Some ("pypi", "six", "1.16.0")))
      r in
  fst (package_entry_component recorder false [2; 0] second (six [six_tar; six_zip])
         empty) = inr c
  /\ In r (external_references c)
  /\ reference_type r = DISTRIBUTION
  /\ (exists location,
        get_pypi_url c = inr location /\ new_XsUri location = inr (url r)).
Proof.
  intros r c.
  destruct (@references_have_one_shape library _ recorder false [2; 0] second
              (six [six_tar; six_zip]) empty c r)
    as (Htype & Hurl & _).
  - reflexivity.
  - left. reflexivity.
  - split; [reflexivity | split; [left; reflexivity | split; [exact Htype | exact Hurl]]].
Defined.

(** X8 at an entry whose second descriptor has no [hash]. *)
Lemma descriptor_without_file_or_hash_is_fatal_six :
  exists e,
    fst (package_entry_component recorder false [2; 0] second (six [six_tar; six_nohash])
           empty) = inl e.
Proof.
  apply (@descriptor_without_file_or_hash_is_fatal library _ recorder false [2; 0] second
           (six [six_tar; six_nohash]) empty
           (@new_Component library (VStr "six") (VStr "1.16.0") None
              (Some ("pypi", "six", "1.16.0")))
           [six_tar; six_nohash] six_nohash
           "https://pypi.org/project/six/1.16.0" "https://pypi.org/project/six/1.16.0");
    try reflexivity.
  - right. left. reflexivity.
  - right. exists [("file", VStr "six-1.16.0.tar.gz")]. split; reflexivity.
Defined.

(** X11 at [lock-version = 2]. *)
Lemma integer_lock_version_two :
  poetry_lock_version (VDict [("lock-version", VInt 2)]) = [2].
Proof.
  apply (@integer_lock_version library (VDict [("lock-version", VInt 2)]) 2).
  reflexivity.
Defined.

(** X13 at the lock file of [requests] with the manifest of [demo]. *)
Lemma root_metadata_of_manifest_demo :
  exists parser,
    fst (PoetryParser recorder requests_lock_text false manifest_text []) = inr parser
    /\ exists manifest n v,
        load_toml manifest_text = inr manifest
        /\ tool_poetry manifest "name" = Some n
        /\ tool_poetry manifest "version" = Some v
        /\ _metadata parser
           = Some {| component :=
                       {| name := n; version := v; bom_ref := None; purl := None;
                          properties := []; external_references := [] |} |}.
Proof.
  eexists. split; [vm_compute; reflexivity |].
  apply (@root_metadata_of_manifest library _ recorder [] requests_lock_text false
           manifest_text);
    vm_compute; reflexivity.
Defined.

(** X14 at the lock file without [metadata] and at the one without
    [package]. *)
Lemma document_without_metadata_or_package_both :
  PoetryParser recorder headless_lock_text false manifest_text []
  = (inl (KeyError (VStr "metadata")), ["init {}"; "loading poetry_lock_contents"])
  /\ PoetryParser recorder bodiless_lock_text false manifest_text []
     = (inl (KeyError (VStr "package")),
        ["init {}"; "loading poetry_lock_contents";
         "detected poetry_lock_version: {!r}"; "processing poetry_lock"]).
Proof.
  split.
  - apply (@document_without_metadata_or_package library _ recorder []
             headless_lock_text false manifest_text headless_lock);
      [reflexivity | left; reflexivity].
  - apply (@document_without_metadata_or_package library _ recorder []
             bodiless_lock_text false manifest_text bodiless_lock);
      [reflexivity | right; reflexivity].
Defined.

(** X15 at the lock file in which [package] is one table. *)
Lemma package_table_is_a_type_error_six :
  fst (PoetryParser recorder table_lock_text false "" []) = inl TypeError.
Proof.
  apply (@package_table_is_a_type_error library _ recorder [] table_lock_text false ""
           table_lock second "name" (VStr "six")
           [("version", VStr "1.16.0"); ("files", VList [])]);
    reflexivity.
Defined.

(** X16 at the entry of [requests] with and without its other fields. *)
Lemma other_fields_are_ignored_requests :
  fst (package_entry_component recorder true [2; 0] second (requests requests_hash) empty)
  = fst (package_entry_component quiet true [2; 0] second requests_described
           {| self := fresh; sink := tt |}).
Proof.
  apply (@other_fields_are_ignored library _ recorder empty _ quiet
           {| self := fresh; sink := tt |} true [2; 0] second
           (requests requests_hash) requests_described);
    reflexivity.
Defined.

(** X17 at the lock file with the files on the entry and a [lock-version]
    that is no number. *)
Lemma old_generation_needs_files_table_unversioned :
  fst (PoetryParser recorder unversioned_lock_text false "" [])
  = inl (KeyError (VStr "files")).
Proof.
  refine (proj2 (@old_generation_needs_files_table library _ recorder []
                   unversioned_lock_text false "" unversioned_lock
                   (VDict [("lock-version", VStr "garbage")]) (six [six_tar]) []
                   _ _ _ _ _)
            (@new_Component library (VStr "six") (VStr "1.16.0") None
               (Some ("pypi", "six", "1.16.0")))
            _);
    try reflexivity.
  exists [("lock-version", VStr "garbage")]. split; reflexivity.
Defined.


(** X19 at the two descriptors of [six] in both orders. *)
Lemma descriptor_order_is_irrelevant_six :
  let c0 := new_Component (VStr "six") (VStr "1.16.0") None
              (Some ("pypi", "six", "1.16.0")) in
  exists c,
    fst (for_each [six_tar; six_zip] (process_file_metadata recorder) c0 empty) = inr c
    /\ exists c',
        fst (for_each [six_zip; six_tar] (process_file_metadata recorder) c0 empty)
        = inr c'
        /\ name c' = name c /\ version c' = version c
        /\ purl c' = purl c /\ bom_ref c' = bom_ref c
        /\ properties c' = properties c
        /\ forall r, In r (external_references c') <-> In r (external_references c).
Proof.
  intros c0. eexists. split; [vm_compute; reflexivity |].
  apply (@descriptor_order_is_irrelevant library _ recorder empty _ recorder empty
           [six_tar; six_zip] [six_zip; six_tar] c0).
  - apply perm_swap.
  - vm_compute. reflexivity.
Defined.

End MoreRuns.

Section CheckedRuns.
#[local] Existing Instance MoreDocuments.checking_library.
Import Documents MoreDocuments.

(** X9 at an entry whose name has a space, with the library that refuses
    such a URL: the descriptors, one of them without [hash], are all left
    out. *)
Lemma invalid_url_leaves_no_reference_spaced :
  let c0 := new_Component (VStr "my package") (VStr "1.0") None
              (Some ("pypi", "my package", "1.0")) in
  fst (package_entry_component recorder false [2; 0]
         (VDict [("lock-version", VStr "2.0")]) (spaced [six_tar; six_nohash])
         {| self := fresh; sink := [] |}) = inr c0
  /\ external_references c0 = [].
Proof.
  intros c0.
  apply (@invalid_url_leaves_no_reference checking_library _ recorder false [2; 0]
           (VDict [("lock-version", VStr "2.0")]) (spaced [six_tar; six_nohash])
           {| self := fresh; sink := [] |} c0 [six_tar; six_nohash]
           (CycloneDxModelException "InvalidUriException"));
    reflexivity.
Defined.

End CheckedRuns.
